(** * The push-notification hook ([src/hooks/usePushNotifications.ts])

    A shallow embedding of the three functions of the hook module and of
    the lifecycle of the hook itself:

    - [sendPushNotification], the outbound HTTP POST;
    - [handleRegistrationError] and [registerForPushNotificationsAsync],
      the registration procedure;
    - [usePushNotifications], the hook, with the module-level flag
      [areListenersReady], its two state cells and its two effects.

    Asynchronous functions are computations in a small monad [Async] that
    records the calls made to the outside world, in order, and ends either
    resolved with a value or rejected with the thrown value.  The hook is a
    transition system over the state of one JavaScript process. *)

From Stdlib Require Import ZArith Ascii String DecimalString.
From stdpp Require Import base list strings.

Local Open Scope string_scope.
Local Open Scope list_scope.
Local Open Scope nat_scope.

(** ** JavaScript values the module handles *)

(** A value that was thrown (or a promise was rejected with).  [JsError m]
    is the object built by [new Error(m)]; [JsThrown s] is any other value,
    given by the text its string conversion yields. *)
Inductive js_thrown : Type :=
| JsError (message : string)
| JsThrown (text : string).

(** The template literal [`${error}`]: for an [Error] object this is
    [Error.prototype.toString], which joins the name ["Error"] and the
    message with [": "] and leaves the separator out for an empty message. *)
Definition template_string (error : js_thrown) : string :=
  match error with
  | JsError message =>
      if decide (message = "") then "Error" else "Error: " +:+ message
  | JsThrown text => text
  end.

(** The values [JSON.stringify] is applied to.  [JUndefined] is the value
    of a property that was not given. *)
#[warnings="-register-all"]
Inductive json : Type :=
| JUndefined
| JNull
| JBool (b : bool)
| JNumber (z : Z)
| JString (s : string)
| JArray (items : list json)
| JObject (fields : list (string * json)).

(** The double quote and the backslash, as one-character strings. *)
Definition dquote : string := String "034"%char EmptyString.
Definition backslash : string := String "092"%char EmptyString.

Definition hex_digit (n : nat) : string :=
  match n with
  | 0 => "0" | 1 => "1" | 2 => "2" | 3 => "3" | 4 => "4" | 5 => "5"
  | 6 => "6" | 7 => "7" | 8 => "8" | 9 => "9" | 10 => "a" | 11 => "b"
  | 12 => "c" | 13 => "d" | 14 => "e" | _ => "f"
  end.

(** One character of a quoted JSON string. *)
Definition quote_char (c : ascii) : string :=
  let n := nat_of_ascii c in
  if decide (n = 34) then backslash +:+ dquote
  else if decide (n = 92) then backslash +:+ backslash
  else if decide (n = 8) then backslash +:+ "b"
  else if decide (n = 9) then backslash +:+ "t"
  else if decide (n = 10) then backslash +:+ "n"
  else if decide (n = 12) then backslash +:+ "f"
  else if decide (n = 13) then backslash +:+ "r"
  else if decide (n < 32) then
    backslash +:+ "u00" +:+ hex_digit (n / 16) +:+ hex_digit (n mod 16)
  else String c EmptyString.

Fixpoint quote_chars (s : string) : string :=
  match s with
  | EmptyString => EmptyString
  | String c rest => quote_char c +:+ quote_chars rest
  end.

Definition quote_string (s : string) : string :=
  dquote +:+ quote_chars s +:+ dquote.

(** Numbers are the integers, written in decimal as JavaScript writes an
    integer of magnitude below 10^21; fractions, and the exponent form of
    larger numbers, are not modelled. *)
Definition number_to_string (z : Z) : string :=
  NilEmpty.string_of_int (Z.to_int z).

Fixpoint join_comma (parts : list string) : string :=
  match parts with
  | [] => ""
  | [p] => p
  | p :: rest => p +:+ "," +:+ join_comma rest
  end.

(** [JSON.stringify]: [None] stands for the result [undefined].  A property
    whose value is [undefined] is left out of an object; an [undefined]
    array element is written [null]. *)
Fixpoint JSON_stringify (v : json) : option string :=
  match v with
  | JUndefined => None
  | JNull => Some "null"
  | JBool true => Some "true"
  | JBool false => Some "false"
  | JNumber z => Some (number_to_string z)
  | JString s => Some (quote_string s)
  | JArray items =>
      let element (x : json) : string :=
        match JSON_stringify x with Some t => t | None => "null" end in
      Some ("[" +:+ join_comma (map element items) +:+ "]")
  | JObject fields =>
      let fix members (fs : list (string * json)) : list string :=
        match fs with
        | [] => []
        | (k, x) :: rest =>
            match JSON_stringify x with
            | Some t => (quote_string k +:+ ":" +:+ t) :: members rest
            | None => members rest
            end
        end in
      Some ("{" +:+ join_comma (members fields) +:+ "}")
  end.

(** ** The outside world *)

(** Permission status reported by the operating system. *)
Inductive PermissionStatus : Type := granted | denied | undetermined.

Global Instance PermissionStatus_eq_dec : EqDecision PermissionStatus.
Proof. solve_decision. Defined.

(** The [fetch] call of [sendPushNotification]. *)
Record Request : Type := {
  url : string;
  method : string;
  headers : list (string * string);
  request_body : option string
}.

Record Response : Type := { status : Z }.

(** How a promise settles. *)
Inductive settled (A : Type) : Type :=
| Resolved (value : A)
| Rejected (reason : js_thrown).
Arguments Resolved {A} value.
Arguments Rejected {A} reason.

(** Everything the module reads from its collaborators.  The operating
    system's calls (channel set-up, permission query and request) resolve:
    a run in which one of them rejects is outside the model, and what is
    proved of the procedure is proved of the runs in which they resolve.
    The token provider and [fetch] may resolve or reject.  A configuration
    source is [None] when its optional chain yields [undefined] or [null]. *)
Record Env : Type := {
  Platform_OS : string;
  Device_isDevice : bool;
  getPermissionsAsync : PermissionStatus;
  requestPermissionsAsync : PermissionStatus;
  expoConfig_projectId : option string;
  easConfig_projectId : option string;
  getExpoPushTokenAsync : option string -> settled string;
  fetch : Request -> settled Response
}.

(** Calls that leave the module, in the order they are made. *)
Inductive call : Type :=
| SetNotificationChannel (name : string)
| GetPermissions
| RequestPermissions
| GetExpoPushToken (projectId : option string)
| ConsoleLog (value : json)
| Alert (message : string)
| Fetch (request : Request).

(** ** Asynchronous computations *)

(** The calls made so far and how the computation ended. *)
Definition Async (A : Type) : Type := list call * settled A.

Definition calls {A} (m : Async A) : list call := m.1.
Definition outcome {A} (m : Async A) : settled A := m.2.

Global Instance Async_ret : MRet Async := fun A a => ([], Resolved a).

Global Instance Async_bind : MBind Async := fun A B f m =>
  match m with
  | (t, Resolved a) => let r := f a in (t ++ r.1, r.2)
  | (t, Rejected e) => (t, Rejected e)
  end.

Definition perform (c : call) : Async unit := ([c], Resolved ()).

Definition throw {A} (e : js_thrown) : Async A := ([], Rejected e).

(** [await p] after the call [c] was made: continues with the value or
    rethrows the rejection. *)
Definition await {A} (c : call) (p : settled A) : Async A := ([c], p).

Definition try_catch {A} (m : Async A) (handler : js_thrown -> Async A)
  : Async A :=
  match m with
  | (t, Resolved a) => (t, Resolved a)
  | (t, Rejected e) => let r := handler e in (t ++ r.1, r.2)
  end.

(** ** [sendPushNotification] *)

Record SendPushOptions : Type := {
  to : list string;
  title : string;
  body : string;
  data : option (list (string * json))
}.

Definition push_send_url : string := "https://exp.host/--/api/v2/push/send".

Definition message (options : SendPushOptions) : json :=
  JObject
    [ ("to", JArray (map JString (to options)));
      ("sound", JString "default");
      ("title", JString (title options));
      ("body", JString (body options));
      ("data", match data options with
               | Some fields => JObject fields
               | None => JUndefined
               end) ].

Definition send_request (options : SendPushOptions) : Request :=
  {| url := push_send_url;
     method := "POST";
     headers := [ ("Accept", "application/json");
                  ("Accept-encoding", "gzip, deflate");
                  ("Content-Type", "application/json") ];
     request_body := JSON_stringify (message options) |}.

Definition sendPushNotification (env : Env) (options : SendPushOptions)
  : Async unit :=
  let request := send_request options in
  _ ← await (Fetch request) (fetch env request);
  mret ().

(** ** The registration procedure *)

(** [alert(errorMessage); throw new Error(errorMessage)]. *)
Definition handleRegistrationError (errorMessage : string) : Async unit :=
  perform (Alert errorMessage);; throw (JsError errorMessage).

(** [a ?? b] on the two configuration sources. *)
Definition nullish_or (a b : option string) : option string :=
  match a with
  | Some x => Some x
  | None => b
  end.

(** [Constants?.expoConfig?.extra?.eas?.projectId ??
    Constants?.easConfig?.projectId]. *)
Definition resolve_projectId (env : Env) : option string :=
  nullish_or (expoConfig_projectId env) (easConfig_projectId env).

(** Truthiness of the project identifier: [undefined] and the empty string
    are falsy. *)
Definition truthy (projectId : option string) : bool :=
  match projectId with
  | Some s => bool_decide (s ≠ "")
  | None => false
  end.

(** The result is [Some token], or [None] for [undefined]. *)
Definition registerForPushNotificationsAsync (env : Env)
  : Async (option string) :=
  (if decide (Platform_OS env = "android")
   then perform (SetNotificationChannel "default")
   else mret ());;
  if Device_isDevice env then
    existingStatus ← await GetPermissions (Resolved (getPermissionsAsync env));
    finalStatus ←
      (if decide (existingStatus ≠ granted)
       then await RequestPermissions (Resolved (requestPermissionsAsync env))
       else mret existingStatus);
    if decide (finalStatus ≠ granted) then
      handleRegistrationError
        "Permission not granted to get push token for push notification!";;
      mret None
    else
      let projectId := resolve_projectId env in
      (if negb (truthy projectId)
       then handleRegistrationError "Project ID not found"
       else mret ());;
      try_catch
        (pushTokenString ←
           await (GetExpoPushToken projectId)
                 (getExpoPushTokenAsync env projectId);
         perform (ConsoleLog (JObject [(Platform_OS env, JString pushTokenString)]));;
         mret (Some pushTokenString))
        (fun error =>
           handleRegistrationError (template_string error);;
           mret None)
  else
    handleRegistrationError "Must use physical device for push notifications";;
    mret None.

(** ** The hook [usePushNotifications] *)

(** A received notification, as far as the hook looks at it: it is stored
    whole and never inspected. *)
Record Notification : Type := {
  identifier : string;
  content_title : string;
  content_body : string
}.

(** One activation of the hook (one mounted view): its two state cells and
    the registration promise its first effect started, while that promise
    has not settled. *)
Record View : Type := {
  expoPushToken : string;
  notifications : list Notification;
  registration : option (settled (option string))
}.

(** The callback given to [addNotificationReceivedListener].  It is a
    closure: [setNotifications] belongs to the view [owner], and
    [closure_notifications] is the value the variable [notifications] had
    in the render whose effect attached the listener. *)
Record NotificationListener : Type := {
  owner : nat;
  closure_notifications : list Notification
}.

(** The state of one JavaScript process: the module-level flag, the views
    activated so far (a view is named by its position), the subscriptions
    that are active, every call made so far, and the rejections no handler
    took. *)
Record Process : Type := {
  areListenersReady : bool;
  views : list View;
  notificationListeners : list NotificationListener;
  responseListeners : list nat;
  log : list call;
  unhandled : list js_thrown
}.

Definition init : Process :=
  {| areListenersReady := false;
     views := [];
     notificationListeners := [];
     responseListeners := [];
     log := [];
     unhandled := [] |}.

Definition with_views (f : list View -> list View) (p : Process) : Process :=
  {| areListenersReady := areListenersReady p;
     views := f (views p);
     notificationListeners := notificationListeners p;
     responseListeners := responseListeners p;
     log := log p;
     unhandled := unhandled p |}.

Definition setExpoPushToken (view : nat) (token : string) : Process -> Process :=
  with_views (alter (fun v =>
    {| expoPushToken := token;
       notifications := notifications v;
       registration := registration v |}) view).

Definition setNotifications (view : nat) (value : list Notification)
  : Process -> Process :=
  with_views (alter (fun v =>
    {| expoPushToken := expoPushToken v;
       notifications := value;
       registration := registration v |}) view).

Definition set_registration (view : nat)
    (r : option (settled (option string))) : Process -> Process :=
  with_views (alter (fun v =>
    {| expoPushToken := expoPushToken v;
       notifications := notifications v;
       registration := r |}) view).

(** [token ?? ""]. *)
Definition token_or_empty (token : option string) : string :=
  match token with
  | Some t => t
  | None => ""
  end.

(** The first effect: unless the flag is set, start the registration.
    The calls of the whole registration are put in the log here, in their
    order; in the running program those after an [await] are made later,
    so a console log of the response listener can fall between them.
    What is proved of the log does not depend on where they fall. *)
Definition effect_register (view : nat) (env : Env) (p : Process) : Process :=
  if areListenersReady p then p
  else
    let r := registerForPushNotificationsAsync env in
    set_registration view (Some (outcome r))
      {| areListenersReady := areListenersReady p;
         views := views p;
         notificationListeners := notificationListeners p;
         responseListeners := responseListeners p;
         log := log p ++ calls r;
         unhandled := unhandled p |}.

(** The second effect: unless the flag is set, set it and attach the two
    listeners.  [notifications] is the value of the state variable in the
    render the effect belongs to. *)
Definition effect_listeners (view : nat) (notifications : list Notification)
    (p : Process) : Process :=
  if areListenersReady p then p
  else
    {| areListenersReady := true;
       views := views p;
       notificationListeners :=
         notificationListeners p ++
         [ {| owner := view; closure_notifications := notifications |} ];
       responseListeners := responseListeners p ++ [view];
       log := log p;
       unhandled := unhandled p |}.

(** First render of a new view, then its two effects in source order. *)
Definition usePushNotifications (env : Env) (p : Process) : Process :=
  let view := length (views p) in
  let expoPushToken := "" in
  let notifications := [] in
  let p1 :=
    with_views (fun vs =>
      vs ++ [ {| expoPushToken := expoPushToken;
                 notifications := notifications;
                 registration := None |} ]) p in
  effect_listeners view notifications (effect_register view env p1).

(** The clean-up the second effect returned, if it attached anything:
    both subscriptions of the view are removed.  The flag is left alone.
    The state cells of the view stay in the process; what a later
    [setExpoPushToken] does to a view that is gone is React's business
    and is not modelled, so what is proved of the token a registration
    leaves is proved of views that are not torn down before it settles. *)
Definition cleanup (view : nat) (p : Process) : Process :=
  {| areListenersReady := areListenersReady p;
     views := views p;
     notificationListeners :=
       filter (fun l => owner l ≠ view) (notificationListeners p);
     responseListeners := filter (fun v => v ≠ view) (responseListeners p);
     log := log p;
     unhandled := unhandled p |}.

(** [promise.then(onResolved).catch(onRejected)] with handlers that update
    the state: the update to apply, or the rejection that is left over. *)
Definition then_catch {A} (promise : settled A)
    (onResolved : A -> Process -> Process)
    (onRejected : js_thrown -> Process -> Process)
  : settled (Process -> Process) :=
  match promise with
  | Resolved a => Resolved (onResolved a)
  | Rejected e => Resolved (onRejected e)
  end.

(** The registration promise of a view settles. *)
Definition settle (view : nat) (p : Process) : Process :=
  match views p !! view with
  | Some v =>
      match registration v with
      | Some promise =>
          let chain :=
            then_catch promise
              (fun token => setExpoPushToken view (token_or_empty token))
              (fun error => setExpoPushToken view (template_string error)) in
          let p' := set_registration view None p in
          match chain with
          | Resolved update => update p'
          | Rejected e =>
              {| areListenersReady := areListenersReady p';
                 views := views p';
                 notificationListeners := notificationListeners p';
                 responseListeners := responseListeners p';
                 log := log p';
                 unhandled := unhandled p' ++ [e] |}
          end
      | None => p
      end
  | None => p
  end.

(** The listener body: [setNotifications([notification, ...notifications])]
    with the [notifications] of the closure. *)
Definition notificationListener (l : NotificationListener)
    (notification : Notification) : Process -> Process :=
  setNotifications (owner l) (notification :: closure_notifications l).

(** A notification arrives: every active listener is called. *)
Definition receive (notification : Notification) (p : Process) : Process :=
  foldl (fun q l => notificationListener l notification q)
        p (notificationListeners p).

(** The user interacts with a notification: every active response listener
    logs the response. *)
Definition respond (response : json) (p : Process) : Process :=
  {| areListenersReady := areListenersReady p;
     views := views p;
     notificationListeners := notificationListeners p;
     responseListeners := responseListeners p;
     log := log p ++ map (fun _ => ConsoleLog response) (responseListeners p);
     unhandled := unhandled p |}.

Inductive event : Type :=
| Mount (env : Env)
| Unmount (view : nat)
| Settle (view : nat)
| Receive (notification : Notification)
| Respond (response : json).

Definition step (p : Process) (e : event) : Process :=
  match e with
  | Mount env => usePushNotifications env p
  | Unmount view => cleanup view p
  | Settle view => settle view p
  | Receive notification => receive notification p
  | Respond response => respond response p
  end.

Definition run (p : Process) (events : list event) : Process :=
  foldl step p events.

(** Observations on a process. *)
Definition notifications_of (p : Process) (view : nat) : list Notification :=
  match views p !! view with
  | Some v => notifications v
  | None => []
  end.

Definition expoPushToken_of (p : Process) (view : nat) : string :=
  match views p !! view with
  | Some v => expoPushToken v
  | None => ""
  end.

Definition registration_of (p : Process) (view : nat)
  : option (settled (option string)) :=
  match views p !! view with
  | Some v => registration v
  | None => None
  end.

Definition stored_entries (p : Process) : nat :=
  sum_list (map (fun v => length (notifications v)) (views p)).

(** ** Observations on calls and requests *)

(** The permission query and request, and the calls that go over the
    network. *)
Definition is_permission_call (c : call) : bool :=
  match c with
  | GetPermissions | RequestPermissions => true
  | _ => false
  end.

Definition is_network_call (c : call) : bool :=
  match c with
  | GetExpoPushToken _ | Fetch _ => true
  | _ => false
  end.

(** The channel set-up that comes first on Android. *)
Definition channel_setup (env : Env) : list call :=
  if decide (Platform_OS env = "android")
  then [SetNotificationChannel "default"] else [].

(** The permission step: the query, and the request when the query did
    not say [granted]. *)
Definition permission_calls (env : Env) : list call :=
  if decide (getPermissionsAsync env ≠ granted)
  then [GetPermissions; RequestPermissions] else [GetPermissions].

Definition lower_char (c : ascii) : ascii :=
  let n := nat_of_ascii c in
  if decide (65 ≤ n ∧ n ≤ 90) then ascii_of_nat (n + 32) else c.

Fixpoint lowercase (s : string) : string :=
  match s with
  | EmptyString => EmptyString
  | String c rest => String (lower_char c) (lowercase rest)
  end.

(** Reading a header of a request: names of HTTP headers are compared
    without regard to case. *)
Definition header_get (name : string) (request : Request) : option string :=
  snd <$> List.find (fun h => bool_decide (lowercase h.1 = lowercase name))
                    (headers request).

(** A view as the first render leaves it. *)
Definition fresh_view : View :=
  {| expoPushToken := ""; notifications := []; registration := None |}.

(** Kinds of events. *)
Definition is_mount (e : event) : bool :=
  match e with
  | Mount _ => true
  | _ => false
  end.

Definition is_receive (e : event) : bool :=
  match e with
  | Receive _ => true
  | _ => false
  end.

Definition tears_down (view : nat) (e : event) : bool :=
  match e with
  | Unmount w => bool_decide (w = view)
  | _ => false
  end.

Definition settles (view : nat) (e : event) : bool :=
  match e with
  | Settle w => bool_decide (w = view)
  | _ => false
  end.

(** The number of activations among some events. *)
Definition activations (events : list event) : nat :=
  length (List.filter is_mount events).

(** What holds of every process reached from [init]: every active listener
    for received notifications closes over the empty list and belongs to a
    view that exists; there is at most one, and none while the flag is
    clear; and no view stores more than one record. *)
Definition well_formed (p : Process) : Prop :=
  Forall (fun l => closure_notifications l = [] ∧ owner l < length (views p))
         (notificationListeners p)
  ∧ length (notificationListeners p) ≤ 1
  ∧ (areListenersReady p = false → notificationListeners p = [])
  ∧ Forall (fun v => length (notifications v) ≤ 1) (views p).

(** What holds after [k] activations when, since [init], the first view
    has not been torn down and no record has arrived: nothing is stored,
    and from the first activation on the one listener is the one of
    view 0. *)
Definition activated (k : nat) (p : Process) : Prop :=
  length (views p) = k
  ∧ Forall (fun v => notifications v = []) (views p)
  ∧ (k = 0 → areListenersReady p = false ∧ notificationListeners p = [])
  ∧ (0 < k →
     areListenersReady p = true
     ∧ notificationListeners p
       = [ {| owner := 0; closure_notifications := [] |} ]).

(** A view whose registration failed with [error]: either the promise has
    not settled yet, or it has and the token holds the text of the error. *)
Definition failed_registration (view : nat) (error : js_thrown) (p : Process)
  : Prop :=
  view < length (views p)
  ∧ (registration_of p view = Some (Rejected error)
     ∨ (registration_of p view = None
        ∧ expoPushToken_of p view = template_string error)).

(** ** Sample inputs *)

Definition sample_token : string := "ExponentPushToken[abc123]".

(** A phone with permission granted and a project identifier in the
    build-time configuration; the provider issues [sample_token] and the
    push service answers every POST with status 500. *)
Definition phone_env : Env :=
  {| Platform_OS := "ios";
     Device_isDevice := true;
     getPermissionsAsync := granted;
     requestPermissionsAsync := granted;
     expoConfig_projectId := Some "project-1";
     easConfig_projectId := None;
     getExpoPushTokenAsync := fun _ => Resolved sample_token;
     fetch := fun _ => Resolved {| status := 500 |} |}.

(** An Android emulator. *)
Definition emulator_env : Env :=
  {| Platform_OS := "android";
     Device_isDevice := false;
     getPermissionsAsync := granted;
     requestPermissionsAsync := granted;
     expoConfig_projectId := Some "project-1";
     easConfig_projectId := None;
     getExpoPushTokenAsync := fun _ => Resolved sample_token;
     fetch := fun _ => Resolved {| status := 200 |} |}.

(** A phone whose user grants the permission when asked, in a build with
    no project identifier. *)
Definition unconfigured_env : Env :=
  {| Platform_OS := "android";
     Device_isDevice := true;
     getPermissionsAsync := undetermined;
     requestPermissionsAsync := granted;
     expoConfig_projectId := None;
     easConfig_projectId := None;
     getExpoPushTokenAsync := fun _ => Resolved sample_token;
     fetch := fun _ => Resolved {| status := 200 |} |}.

(** A phone without network: the provider and [fetch] both reject. *)
Definition offline_env : Env :=
  {| Platform_OS := "ios";
     Device_isDevice := true;
     getPermissionsAsync := granted;
     requestPermissionsAsync := granted;
     expoConfig_projectId := None;
     easConfig_projectId := Some "project-1";
     getExpoPushTokenAsync := fun _ => Rejected (JsError "Network request failed");
     fetch := fun _ => Rejected (JsThrown "TypeError: Network request failed") |}.

Definition sample_options : SendPushOptions :=
  {| to := ["tok1"]; title := "T"; body := "B"; data := None |}.

Definition recordA : Notification :=
  {| identifier := "A"; content_title := "first"; content_body := "" |}.
Definition recordB : Notification :=
  {| identifier := "B"; content_title := "second"; content_body := "" |}.
Definition recordC : Notification :=
  {| identifier := "C"; content_title := "third"; content_body := "" |}.

(** A process in which one view has already activated the hook. *)
Definition activated_once : Process := run init [Mount phone_env].

(** Two activations, with the first registration settling in between. *)
Definition two_activations : list event :=
  [Mount phone_env; Respond JNull; Settle 0; Mount emulator_env; Unmount 1;
   Settle 1].

(** The first view is torn down before the second activation. *)
Definition remounted : list event :=
  [Mount phone_env; Settle 0; Unmount 0; Mount emulator_env].

(** Things that happen while the first view stays mounted. *)
Definition mounted_events : list event :=
  [Receive recordA; Settle 1; Mount phone_env; Respond JNull; Unmount 1;
   Receive recordB; Settle 1].

(** Things that happen after an activation. *)
Definition sample_events : list event :=
  [Receive recordA; Settle 1; Mount phone_env; Respond JNull; Unmount 0;
   Receive recordB; Settle 1].

(** ** Further observations and sample inputs *)

Definition is_alert (c : call) : bool :=
  match c with
  | Alert _ => true
  | _ => false
  end.

Definition is_channel_setup (c : call) : bool :=
  match c with
  | SetNotificationChannel _ => true
  | _ => false
  end.

Definition is_get_permissions (c : call) : bool :=
  match c with
  | GetPermissions => true
  | _ => false
  end.

Definition is_request_permissions (c : call) : bool :=
  match c with
  | RequestPermissions => true
  | _ => false
  end.


(** How many of some calls are of a given kind. *)
Definition count_calls (kind : call -> bool) (cs : list call) : nat :=
  length (List.filter kind cs).

(** A phone whose user refuses the permission. *)
Definition refused_env : Env :=
  {| Platform_OS := "android";
     Device_isDevice := true;
     getPermissionsAsync := undetermined;
     requestPermissionsAsync := denied;
     expoConfig_projectId := Some "project-1";
     easConfig_projectId := None;
     getExpoPushTokenAsync := fun _ => Resolved sample_token;
     fetch := fun _ => Resolved {| status := 200 |} |}.

(** A phone whose build-time configuration has an empty project
    identifier, beside a fallback that is set. *)
Definition masked_env : Env :=
  {| Platform_OS := "ios";
     Device_isDevice := true;
     getPermissionsAsync := granted;
     requestPermissionsAsync := granted;
     expoConfig_projectId := Some "";
     easConfig_projectId := Some "project-2";
     getExpoPushTokenAsync := fun _ => Resolved sample_token;
     fetch := fun _ => Resolved {| status := 200 |} |}.

(** A phone with both configuration sources set, to different values. *)
Definition both_env : Env :=
  {| Platform_OS := "ios";
     Device_isDevice := true;
     getPermissionsAsync := denied;
     requestPermissionsAsync := granted;
     expoConfig_projectId := Some "project-1";
     easConfig_projectId := Some "project-2";
     getExpoPushTokenAsync := fun _ => Resolved sample_token;
     fetch := fun _ => Resolved {| status := 200 |} |}.

(** What a registration promise leaves in the token once it has settled. *)
Definition settled_token (promise : settled (option string)) : string :=
  match promise with
  | Resolved token => token_or_empty token
  | Rejected error => template_string error
  end.

(** A view whose registration ended as [promise]: either the promise has
    not settled yet, or it has and the token holds what it leaves. *)
Definition started_registration (view : nat)
    (promise : settled (option string)) (p : Process) : Prop :=
  view < length (views p)
  ∧ (registration_of p view = Some promise
     ∨ (registration_of p view = None
        ∧ expoPushToken_of p view = settled_token promise)).

(** What holds of every process reached from [init], beside
    [well_formed]: the listeners belong to the first view, there is at
    most one response listener, every view but the first is as its first
    render left it, and the flag is clear exactly while there is no view,
    no response listener and no call made. *)
Definition first_view_only (p : Process) : Prop :=
  Forall (fun l => owner l = 0) (notificationListeners p)
  ∧ Forall (fun v => v = 0) (responseListeners p)
  ∧ length (responseListeners p) ≤ 1
  ∧ Forall (fun v => v = fresh_view) (tail (views p))
  ∧ (areListenersReady p = false →
     views p = [] ∧ responseListeners p = [] ∧ log p = [])
  ∧ (areListenersReady p = true → views p ≠ []).

(** The environment of the first activation among some events. *)
Fixpoint first_mount (events : list event) : option Env :=
  match events with
  | [] => None
  | Mount env :: _ => Some env
  | _ :: rest => first_mount rest
  end.

(** The screen [PushApp]: the text it renders, [Token: {expoPushToken}],
    for the view that activated the hook. *)
Definition PushApp (p : Process) (view : nat) : string :=
  "Token: " +:+ expoPushToken_of p view.

(** * Properties *)

(** ** The monad *)

Lemma calls_bind {A B} (m : Async A) (f : A -> Async B) :
  calls (m ≫= f) =
  match outcome m with
  | Resolved a => calls m ++ calls (f a)
  | Rejected _ => calls m
  end.
Proof. destruct m as [t [a|e]]; reflexivity. Qed.

Lemma outcome_bind {A B} (m : Async A) (f : A -> Async B) :
  outcome (m ≫= f) =
  match outcome m with
  | Resolved a => outcome (f a)
  | Rejected e => Rejected e
  end.
Proof. destruct m as [t [a|e]]; reflexivity. Qed.

Lemma handleRegistrationError_throws (errorMessage : string) :
  handleRegistrationError errorMessage
  = ([Alert errorMessage], Rejected (JsError errorMessage)).
Proof. reflexivity. Qed.

(** ** [sendPushNotification] *)

Section Send.
Variable env : Env.
Variable options : SendPushOptions.

Lemma send_calls :
  calls (sendPushNotification env options) = [Fetch (send_request options)].
Proof.
  unfold sendPushNotification, await.
  destruct (fetch env (send_request options)); reflexivity.
Qed.

Lemma send_outcome :
  outcome (sendPushNotification env options) =
  match fetch env (send_request options) with
  | Resolved _ => Resolved ()
  | Rejected e => Rejected e
  end.
Proof.
  unfold sendPushNotification, await.
  destruct (fetch env (send_request options)); reflexivity.
Qed.
End Send.

(** C3, as the code has it: [sendPushNotification] has no handler of its
    own.  Whatever response the POST resolves with, the response is not
    looked at and the call resolves; when the POST rejects, the promise
    the call returns rejects with the same value, so the failure reaches
    the caller. *)
Theorem send_propagates_rejection_only (env : Env) (options : SendPushOptions) :
  outcome (sendPushNotification env options) =
  match fetch env (send_request options) with
  | Resolved _ => Resolved ()
  | Rejected e => Rejected e
  end.
Proof. apply send_outcome. Qed.

(** C3, as stated, fails: without network the call made with the sample
    options does not resolve, it rejects with the error of [fetch]. *)
Lemma send_network_failure_reaches_caller :
  outcome (sendPushNotification offline_env sample_options)
  = Rejected (JsThrown "TypeError: Network request failed")
  ∧ outcome (sendPushNotification offline_env sample_options) ≠ Resolved ().
Proof. split; [reflexivity | discriminate]. Qed.

(** C10: every call issues exactly one request, a POST to the push-send
    endpoint whose body is the serialised envelope
    [{to, sound: "default", title, body, data}] and whose headers are
    Accept, Accept-Encoding and Content-Type with the values of the claim;
    and whatever response (status) the POST resolves with, the call
    resolves. *)
Theorem send_issues_one_post (env : Env) (options : SendPushOptions) :
  let request := send_request options in
  calls (sendPushNotification env options) = [Fetch request]
  ∧ url request = "https://exp.host/--/api/v2/push/send"
  ∧ method request = "POST"
  ∧ request_body request =
      JSON_stringify
        (JObject [ ("to", JArray (map JString (to options)));
                   ("sound", JString "default");
                   ("title", JString (title options));
                   ("body", JString (body options));
                   ("data", from_option JObject JUndefined (data options)) ])
  ∧ header_get "Accept" request = Some "application/json"
  ∧ header_get "Accept-Encoding" request = Some "gzip, deflate"
  ∧ header_get "Content-Type" request = Some "application/json"
  ∧ length (headers request) = 3
  ∧ ∀ response : Response,
      fetch env request = Resolved response →
      outcome (sendPushNotification env options) = Resolved ().
Proof.
  intros request.
  split; [apply send_calls |].
  do 2 (split; [reflexivity |]).
  split.
  { subst request. unfold send_request, message; simpl request_body.
    destruct (data options); reflexivity. }
  do 4 (split; [reflexivity |]).
  intros response Hfetch. rewrite send_outcome. fold request.
  by rewrite Hfetch.
Qed.

(** The example of the specification: one POST whose body has no [data]
    member, resolved although the service answered with status 500. *)
Lemma send_issues_one_post_witness :
  fetch phone_env (send_request sample_options) = Resolved {| status := 500 |}
  ∧ calls (sendPushNotification phone_env sample_options)
    = [Fetch (send_request sample_options)]
  ∧ request_body (send_request sample_options)
    = Some ("{" +:+ dquote +:+ "to" +:+ dquote +:+ ":["
            +:+ dquote +:+ "tok1" +:+ dquote +:+ "],"
            +:+ dquote +:+ "sound" +:+ dquote +:+ ":"
            +:+ dquote +:+ "default" +:+ dquote +:+ ","
            +:+ dquote +:+ "title" +:+ dquote +:+ ":"
            +:+ dquote +:+ "T" +:+ dquote +:+ ","
            +:+ dquote +:+ "body" +:+ dquote +:+ ":"
            +:+ dquote +:+ "B" +:+ dquote +:+ "}")
  ∧ outcome (sendPushNotification phone_env sample_options) = Resolved ().
Proof.
  pose proof (send_issues_one_post phone_env sample_options) as H.
  simpl in H. destruct H as (Hcalls & _ & _ & _ & _ & _ & _ & _ & Hres).
  split; [reflexivity |].
  split; [exact Hcalls |].
  split; [reflexivity |].
  exact (Hres {| status := 500 |} eq_refl).
Defined.

(** ** The registration procedure *)

Section Registration.
Variable env : Env.

(** Not a physical device: the else branch. *)
Lemma register_not_device :
  Device_isDevice env = false →
  registerForPushNotificationsAsync env
  = (channel_setup env ++
       [Alert "Must use physical device for push notifications"],
     Rejected (JsError "Must use physical device for push notifications")).
Proof.
  intros Hdev. unfold registerForPushNotificationsAsync, channel_setup.
  rewrite Hdev. destruct (decide (Platform_OS env = "android")); reflexivity.
Qed.

(** The permission was refused. *)
Lemma register_permission_refused :
  Device_isDevice env = true →
  getPermissionsAsync env ≠ granted →
  requestPermissionsAsync env ≠ granted →
  registerForPushNotificationsAsync env
  = (channel_setup env ++ [GetPermissions; RequestPermissions] ++
       [Alert "Permission not granted to get push token for push notification!"],
     Rejected (JsError
       "Permission not granted to get push token for push notification!")).
Proof.
  intros Hdev Hq Hr. unfold registerForPushNotificationsAsync, channel_setup.
  rewrite Hdev.
  destruct (decide (Platform_OS env = "android")); simpl;
    (destruct (decide (getPermissionsAsync env ≠ granted)); [| done]); simpl;
    (destruct (decide (requestPermissionsAsync env ≠ granted)); [| done]);
    reflexivity.
Qed.

(** Permission granted, by the query or by the request, and no usable
    project identifier. *)
Lemma register_no_project :
  Device_isDevice env = true →
  getPermissionsAsync env = granted ∨ requestPermissionsAsync env = granted →
  truthy (resolve_projectId env) = false →
  registerForPushNotificationsAsync env
  = (channel_setup env ++ permission_calls env ++
       [Alert "Project ID not found"],
     Rejected (JsError "Project ID not found")).
Proof.
  intros Hdev Hperm Hpid.
  unfold registerForPushNotificationsAsync, channel_setup, permission_calls.
  rewrite Hdev. rewrite Hpid.
  destruct (decide (Platform_OS env = "android")); simpl;
    destruct (decide (getPermissionsAsync env ≠ granted)) as [Hq|Hq]; simpl.
  all: try (destruct (decide (requestPermissionsAsync env ≠ granted));
            [by destruct Hperm | reflexivity]).
  all: destruct (decide (getPermissionsAsync env ≠ granted)); [done |];
       reflexivity.
Qed.

(** Permission granted and a usable project identifier: the outcome is
    decided by the provider. *)
Lemma register_with_project :
  Device_isDevice env = true →
  getPermissionsAsync env = granted ∨ requestPermissionsAsync env = granted →
  truthy (resolve_projectId env) = true →
  registerForPushNotificationsAsync env
  = match getExpoPushTokenAsync env (resolve_projectId env) with
    | Resolved token =>
        (channel_setup env ++ permission_calls env ++
           [GetExpoPushToken (resolve_projectId env);
            ConsoleLog (JObject [(Platform_OS env, JString token)])],
         Resolved (Some token))
    | Rejected error =>
        (channel_setup env ++ permission_calls env ++
           [GetExpoPushToken (resolve_projectId env); Alert (template_string error)],
         Rejected (JsError (template_string error)))
    end.
Proof.
  intros Hdev Hperm Hpid.
  unfold registerForPushNotificationsAsync, channel_setup, permission_calls.
  rewrite Hdev. rewrite Hpid.
  destruct (getExpoPushTokenAsync env (resolve_projectId env)) as [token|error];
  destruct (decide (Platform_OS env = "android")); simpl;
    destruct (decide (getPermissionsAsync env ≠ granted)) as [Hq|Hq]; simpl.
  all: try (destruct (decide (requestPermissionsAsync env ≠ granted));
            [by destruct Hperm | reflexivity]).
  all: destruct (decide (getPermissionsAsync env ≠ granted)); [done |];
       reflexivity.
Qed.
End Registration.

(** Every way the procedure can fail: it rejects with an [Error] object,
    raised by [handleRegistrationError] after the alert with the same
    text. *)
Lemma register_rejects_with_alert (env : Env) (e : js_thrown) :
  outcome (registerForPushNotificationsAsync env) = Rejected e →
  ∃ errorMessage,
    e = JsError errorMessage ∧
    last (calls (registerForPushNotificationsAsync env))
      = Some (Alert errorMessage).
Proof.
  destruct (Device_isDevice env) eqn:Hdev.
  - destruct (decide (getPermissionsAsync env = granted
                      ∨ requestPermissionsAsync env = granted)) as [Hperm|Hperm].
    + destruct (truthy (resolve_projectId env)) eqn:Hpid.
      * rewrite register_with_project by done.
        destruct (getExpoPushTokenAsync env _) as [token|error]; [done |].
        intros [= <-]. eexists; split; [done |].
        unfold calls; simpl. by rewrite !last_app.
      * rewrite register_no_project by done.
        intros [= <-]. eexists; split; [done |].
        unfold calls; simpl. by rewrite !last_app.
    + rewrite register_permission_refused by (try done; intros ?; apply Hperm; auto).
      intros [= <-]. eexists; split; [done |].
      unfold calls; simpl. by rewrite !last_app.
  - rewrite register_not_device by done.
    intros [= <-]. eexists; split; [done |].
    unfold calls; simpl. by rewrite !last_app.
Qed.

(** C7: off a physical device the procedure fails with the error
    "Must use physical device for push notifications", and none of its
    calls is a permission query or request or goes over the network. *)
Theorem not_physical_device_fails (env : Env) :
  Device_isDevice env = false →
  outcome (registerForPushNotificationsAsync env)
    = Rejected (JsError "Must use physical device for push notifications")
  ∧ Forall (fun c => is_permission_call c = false ∧ is_network_call c = false)
           (calls (registerForPushNotificationsAsync env)).
Proof.
  intros Hdev. rewrite register_not_device by done.
  split; [reflexivity |]. unfold calls, channel_setup; simpl.
  destruct (decide (Platform_OS env = "android")); repeat constructor.
Qed.

Lemma not_physical_device_fails_witness :
  Device_isDevice emulator_env = false
  ∧ outcome (registerForPushNotificationsAsync emulator_env)
    = Rejected (JsError "Must use physical device for push notifications")
  ∧ Forall (fun c => is_permission_call c = false ∧ is_network_call c = false)
           (calls (registerForPushNotificationsAsync emulator_env)).
Proof.
  split; [reflexivity |].
  apply (not_physical_device_fails emulator_env). reflexivity.
Defined.

(** C8: on a device, with the permission granted and neither configuration
    source giving a project identifier, the procedure fails with the error
    "Project ID not found" and no call goes over the network: the token is
    never asked for. *)
Theorem missing_project_id_fails (env : Env) :
  Device_isDevice env = true →
  getPermissionsAsync env = granted ∨ requestPermissionsAsync env = granted →
  expoConfig_projectId env = None →
  easConfig_projectId env = None →
  outcome (registerForPushNotificationsAsync env)
    = Rejected (JsError "Project ID not found")
  ∧ Forall (fun c => is_network_call c = false)
           (calls (registerForPushNotificationsAsync env)).
Proof.
  intros Hdev Hperm Hexpo Heas.
  rewrite register_no_project;
    [| done | done | by unfold resolve_projectId; rewrite Hexpo, Heas].
  split; [reflexivity |].
  unfold calls, channel_setup, permission_calls; simpl.
  destruct (decide (Platform_OS env = "android"));
    destruct (decide (getPermissionsAsync env ≠ granted));
    repeat constructor.
Qed.

Lemma missing_project_id_fails_witness :
  (Device_isDevice unconfigured_env = true
   ∧ (getPermissionsAsync unconfigured_env = granted
      ∨ requestPermissionsAsync unconfigured_env = granted)
   ∧ expoConfig_projectId unconfigured_env = None
   ∧ easConfig_projectId unconfigured_env = None)
  ∧ outcome (registerForPushNotificationsAsync unconfigured_env)
    = Rejected (JsError "Project ID not found")
  ∧ Forall (fun c => is_network_call c = false)
           (calls (registerForPushNotificationsAsync unconfigured_env)).
Proof.
  split.
  - split; [reflexivity |]. split; [right; reflexivity |].
    split; reflexivity.
  - apply (missing_project_id_fails unconfigured_env);
      [reflexivity | right; reflexivity | reflexivity | reflexivity].
Defined.

(** C9: on a device with the permission already granted and a project
    identifier that resolves, the token the provider answers with is the
    result of the procedure, unchanged. *)
Theorem granted_returns_provider_token (env : Env) (token : string) :
  Device_isDevice env = true →
  getPermissionsAsync env = granted →
  truthy (resolve_projectId env) = true →
  getExpoPushTokenAsync env (resolve_projectId env) = Resolved token →
  outcome (registerForPushNotificationsAsync env) = Resolved (Some token).
Proof.
  intros Hdev Hperm Hpid Htoken.
  rewrite register_with_project by auto.
  by rewrite Htoken.
Qed.

Lemma granted_returns_provider_token_witness :
  (Device_isDevice phone_env = true
   ∧ getPermissionsAsync phone_env = granted
   ∧ truthy (resolve_projectId phone_env) = true
   ∧ getExpoPushTokenAsync phone_env (resolve_projectId phone_env)
     = Resolved "ExponentPushToken[abc123]")
  ∧ outcome (registerForPushNotificationsAsync phone_env)
    = Resolved (Some "ExponentPushToken[abc123]").
Proof.
  split; [repeat split |].
  exact (granted_returns_provider_token phone_env "ExponentPushToken[abc123]"
           eq_refl eq_refl eq_refl eq_refl).
Defined.

(** ** The hook: what each operation leaves alone *)

Section Frame.
Variable f : View -> View.
Variable i : nat.
Variable p : Process.

Lemma expoPushToken_of_alter (j : nat) :
  (∀ v, expoPushToken (f v) = expoPushToken v) →
  expoPushToken_of (with_views (alter f i) p) j = expoPushToken_of p j.
Proof.
  intros Hf. unfold expoPushToken_of, with_views; simpl.
  rewrite list_lookup_alter. case_decide as Hij; [subst j | done].
  destruct (views p !! i); simpl; [apply Hf | done].
Qed.

Lemma registration_of_alter (j : nat) :
  (∀ v, registration (f v) = registration v) →
  registration_of (with_views (alter f i) p) j = registration_of p j.
Proof.
  intros Hf. unfold registration_of, with_views; simpl.
  rewrite list_lookup_alter. case_decide as Hij; [subst j | done].
  destruct (views p !! i); simpl; [apply Hf | done].
Qed.

Lemma notifications_of_alter (j : nat) :
  (∀ v, notifications (f v) = notifications v) →
  notifications_of (with_views (alter f i) p) j = notifications_of p j.
Proof.
  intros Hf. unfold notifications_of, with_views; simpl.
  rewrite list_lookup_alter. case_decide as Hij; [subst j | done].
  destruct (views p !! i); simpl; [apply Hf | done].
Qed.

Lemma length_views_alter :
  length (views (with_views (alter f i) p)) = length (views p).
Proof. unfold with_views; simpl. apply length_alter. Qed.
End Frame.

(** A notification that arrives changes nothing but the views, and of a
    view nothing but the stored list. *)
Section Receive.
Variable notification : Notification.

Lemma receive_fold (ls : list NotificationListener) (p : Process) :
  let q := foldl (fun q l => notificationListener l notification q) p ls in
  areListenersReady q = areListenersReady p
  ∧ notificationListeners q = notificationListeners p
  ∧ responseListeners q = responseListeners p
  ∧ log q = log p
  ∧ unhandled q = unhandled p
  ∧ length (views q) = length (views p)
  ∧ (∀ j, expoPushToken_of q j = expoPushToken_of p j)
  ∧ (∀ j, registration_of q j = registration_of p j).
Proof.
  revert p. induction ls as [|l ls IH]; intros p; simpl; [done |].
  destruct (IH (notificationListener l notification p))
    as (-> & -> & -> & -> & -> & -> & Ht & Hr).
  repeat split; try reflexivity.
  - apply length_views_alter.
  - intros j. rewrite Ht. by apply expoPushToken_of_alter.
  - intros j. rewrite Hr. by apply registration_of_alter.
Qed.

Lemma receive_frame (p : Process) :
  areListenersReady (receive notification p) = areListenersReady p
  ∧ notificationListeners (receive notification p) = notificationListeners p
  ∧ responseListeners (receive notification p) = responseListeners p
  ∧ log (receive notification p) = log p
  ∧ unhandled (receive notification p) = unhandled p
  ∧ length (views (receive notification p)) = length (views p)
  ∧ (∀ j, expoPushToken_of (receive notification p) j = expoPushToken_of p j)
  ∧ (∀ j, registration_of (receive notification p) j = registration_of p j).
Proof. apply receive_fold. Qed.
End Receive.

(** Settling a view that has no registration in flight does nothing. *)
Lemma settle_idle (view : nat) (p : Process) :
  registration_of p view = None → settle view p = p.
Proof.
  unfold registration_of, settle. destruct (views p !! view) as [v|]; [| done].
  by intros ->.
Qed.

(** Settling leaves the flag, the listeners and the log alone, and no
    rejection is left without a handler. *)
Lemma settle_frame (view : nat) (p : Process) :
  areListenersReady (settle view p) = areListenersReady p
  ∧ notificationListeners (settle view p) = notificationListeners p
  ∧ responseListeners (settle view p) = responseListeners p
  ∧ log (settle view p) = log p
  ∧ unhandled (settle view p) = unhandled p
  ∧ length (views (settle view p)) = length (views p)
  ∧ (∀ j, notifications_of (settle view p) j = notifications_of p j).
Proof.
  unfold settle. destruct (views p !! view) as [v|]; [| done].
  destruct (registration v) as [[token|error]|]; [| | done]; simpl;
    (repeat split; try reflexivity;
     [ by rewrite !length_alter
     | intros j; unfold setExpoPushToken, set_registration;
       by rewrite !notifications_of_alter ]).
Qed.

Lemma settle_other (view j : nat) (p : Process) :
  view ≠ j →
  expoPushToken_of (settle view p) j = expoPushToken_of p j
  ∧ registration_of (settle view p) j = registration_of p j.
Proof.
  intros Hne. unfold settle. destruct (views p !! view) as [v|]; [| done].
  destruct (registration v) as [[token|error]|]; [| | done]; simpl.
  all: unfold expoPushToken_of, registration_of, setExpoPushToken,
         set_registration, with_views; simpl.
  all: by rewrite !list_lookup_alter_ne.
Qed.

(** What settling writes into the token of the view. *)
Lemma settle_token (view : nat) (p : Process) (promise : settled (option string)) :
  registration_of p view = Some promise →
  expoPushToken_of (settle view p) view =
    match promise with
    | Resolved token => token_or_empty token
    | Rejected error => template_string error
    end
  ∧ registration_of (settle view p) view = None.
Proof.
  unfold registration_of, settle.
  destruct (views p !! view) as [v|] eqn:Hv; [| done]. intros ->.
  destruct promise as [token|error]; simpl.
  all: unfold expoPushToken_of, registration_of, setExpoPushToken,
         set_registration, with_views; simpl.
  all: by rewrite !list_lookup_alter_eq, Hv.
Qed.

(** ** The hook: activation *)

(** With the flag set both effects return at once: the activation adds a
    view and nothing else. *)
Lemma mount_ready (env : Env) (p : Process) :
  areListenersReady p = true →
  usePushNotifications env p
  = {| areListenersReady := true;
       views := views p ++ [fresh_view];
       notificationListeners := notificationListeners p;
       responseListeners := responseListeners p;
       log := log p;
       unhandled := unhandled p |}.
Proof.
  intros Hready.
  unfold usePushNotifications, effect_listeners, effect_register, with_views.
  simpl. rewrite Hready. reflexivity.
Qed.

(** With the flag clear the activation starts the registration, sets the
    flag and attaches both listeners; the listener for received
    notifications closes over the empty list of the first render. *)
Lemma mount_first (env : Env) (p : Process) :
  areListenersReady p = false →
  usePushNotifications env p
  = {| areListenersReady := true;
       views := views p ++
         [ {| expoPushToken := "";
              notifications := [];
              registration :=
                Some (outcome (registerForPushNotificationsAsync env)) |} ];
       notificationListeners := notificationListeners p ++
         [ {| owner := length (views p); closure_notifications := [] |} ];
       responseListeners := responseListeners p ++ [length (views p)];
       log := log p ++ calls (registerForPushNotificationsAsync env);
       unhandled := unhandled p |}.
Proof.
  intros Hready.
  unfold usePushNotifications, effect_listeners, effect_register,
    set_registration, with_views.
  simpl. rewrite Hready. simpl. f_equal.
  rewrite <- (Nat.add_0_r (length (views p))) at 1.
  by rewrite alter_app_r.
Qed.

Lemma mount_old_views (env : Env) (p : Process) (j : nat) :
  j < length (views p) →
  views (usePushNotifications env p) !! j = views p !! j.
Proof.
  intros Hj. destruct (areListenersReady p) eqn:Hready.
  - rewrite mount_ready by done. simpl. by rewrite lookup_app_l.
  - rewrite mount_first by done. simpl. by rewrite lookup_app_l.
Qed.

Lemma mount_length (env : Env) (p : Process) :
  length (views (usePushNotifications env p)) = S (length (views p)).
Proof.
  destruct (areListenersReady p) eqn:Hready.
  - rewrite mount_ready by done. simpl. rewrite length_app. simpl. lia.
  - rewrite mount_first by done. simpl. rewrite length_app. simpl. lia.
Qed.

(** ** The hook: invariants of a run *)

(** The flag, once set, stays set: no operation clears it. *)
Lemma step_keeps_ready (p : Process) (e : event) :
  areListenersReady p = true → areListenersReady (step p e) = true.
Proof.
  intros Hready. destruct e as [env|view|view|notification|response]; simpl.
  - by rewrite mount_ready.
  - done.
  - by rewrite (proj1 (settle_frame view p)).
  - by rewrite (proj1 (receive_frame notification p)).
  - done.
Qed.

Lemma run_keeps_ready (events : list event) (p : Process) :
  areListenersReady p = true → areListenersReady (run p events) = true.
Proof.
  revert p. induction events as [|e events IH]; intros p Hready; [done |].
  simpl. apply IH. by apply step_keeps_ready.
Qed.

(** No step leaves a rejection without a handler. *)
Lemma step_unhandled (p : Process) (e : event) :
  unhandled (step p e) = unhandled p.
Proof.
  destruct e as [env|view|view|notification|response]; simpl.
  - destruct (areListenersReady p) eqn:Hready.
    + by rewrite mount_ready.
    + by rewrite mount_first.
  - done.
  - apply settle_frame.
  - apply receive_frame.
  - done.
Qed.

Lemma run_unhandled (events : list event) (p : Process) :
  unhandled (run p events) = unhandled p.
Proof.
  revert p. induction events as [|e events IH]; intros p; [done |].
  simpl. rewrite IH. apply step_unhandled.
Qed.

(** The token and the registration of a view already there change only
    when that view settles. *)
Lemma step_view_frame (p : Process) (e : event) (j : nat) :
  j < length (views p) →
  settles j e = false →
  j < length (views (step p e))
  ∧ expoPushToken_of (step p e) j = expoPushToken_of p j
  ∧ registration_of (step p e) j = registration_of p j.
Proof.
  intros Hj Hsettles.
  destruct e as [env|view|view|notification|response]; simpl.
  - split; [rewrite mount_length; lia |].
    unfold expoPushToken_of, registration_of.
    by rewrite mount_old_views.
  - done.
  - simpl in Hsettles. apply bool_decide_eq_false in Hsettles.
    destruct (settle_frame view p) as (_ & _ & _ & _ & _ & Hlen & _).
    split; [by rewrite Hlen |]. by apply settle_other.
  - destruct (receive_frame notification p)
      as (_ & _ & _ & _ & _ & Hlen & Ht & Hr).
    split; [by rewrite Hlen |]. by rewrite Ht, Hr.
  - done.
Qed.

Lemma run_view_frame (events : list event) (p : Process) (j : nat) :
  j < length (views p) →
  Forall (fun e => settles j e = false) events →
  j < length (views (run p events))
  ∧ expoPushToken_of (run p events) j = expoPushToken_of p j
  ∧ registration_of (run p events) j = registration_of p j.
Proof.
  revert p. induction events as [|e events IH]; intros p Hj Hev; [done |].
  apply Forall_cons in Hev as [He Hev].
  destruct (step_view_frame p e j Hj He) as (Hj' & Ht & Hr).
  simpl. destruct (IH (step p e) Hj' Hev) as (? & -> & ->). done.
Qed.

(** A view with no registration in flight keeps its token, whatever
    happens. *)
Lemma run_idle_view (events : list event) (p : Process) (j : nat) :
  j < length (views p) →
  registration_of p j = None →
  expoPushToken_of (run p events) j = expoPushToken_of p j
  ∧ registration_of (run p events) j = None.
Proof.
  revert p. induction events as [|e events IH]; intros p Hj Hidle; [done |].
  simpl. destruct (settles j e) eqn:Hsettles.
  - destruct e; try done. simpl in Hsettles.
    apply bool_decide_eq_true in Hsettles as ->.
    simpl. rewrite settle_idle by done. by apply IH.
  - destruct (step_view_frame p e j Hj Hsettles) as (Hj' & Ht & Hr).
    rewrite <- Ht. apply IH; [done | by rewrite Hr].
Qed.

(** C4: when the flag is already set, an activation attaches no listener
    and does not start the registration (no call is made, no promise is in
    flight); and from then on, whatever happens, the flag stays set, the
    registration of that view is never started and its token stays the
    empty string. *)
Theorem later_activation_skips (env : Env) (p : Process) (events : list event) :
  areListenersReady p = true →
  let view := length (views p) in
  let p' := step p (Mount env) in
  notificationListeners p' = notificationListeners p
  ∧ responseListeners p' = responseListeners p
  ∧ log p' = log p
  ∧ registration_of p' view = None
  ∧ areListenersReady (run p' events) = true
  ∧ registration_of (run p' events) view = None
  ∧ expoPushToken_of (run p' events) view = "".
Proof.
  intros Hready view p'.
  assert (Hp' : p' = _) by (exact (mount_ready env p Hready)).
  assert (Hreg : registration_of p' view = None).
  { rewrite Hp'. unfold registration_of; simpl.
    by rewrite list_lookup_middle. }
  assert (Htok : expoPushToken_of p' view = "").
  { rewrite Hp'. unfold expoPushToken_of; simpl.
    by rewrite list_lookup_middle. }
  assert (Hlen : view < length (views p')).
  { subst p'. simpl. rewrite mount_length. unfold view. lia. }
  destruct (run_idle_view events p' view Hlen Hreg) as [Ht Hr].
  rewrite Hp' at 1 2 3. simpl.
  repeat split; try done.
  - apply run_keeps_ready. by rewrite Hp'.
  - by rewrite Ht.
Qed.

Lemma later_activation_skips_witness :
  areListenersReady activated_once = true
  ∧ notificationListeners (step activated_once (Mount emulator_env))
    = notificationListeners activated_once
  ∧ responseListeners (step activated_once (Mount emulator_env))
    = responseListeners activated_once
  ∧ log (step activated_once (Mount emulator_env)) = log activated_once
  ∧ registration_of (step activated_once (Mount emulator_env)) 1 = None
  ∧ areListenersReady
      (run (step activated_once (Mount emulator_env)) sample_events) = true
  ∧ registration_of
      (run (step activated_once (Mount emulator_env)) sample_events) 1 = None
  ∧ expoPushToken_of
      (run (step activated_once (Mount emulator_env)) sample_events) 1 = "".
Proof.
  split; [reflexivity |].
  apply (later_activation_skips emulator_env activated_once sample_events).
  reflexivity.
Defined.

Lemma step_failed_registration
    (view : nat) (error : js_thrown) (p : Process) (e : event) :
  failed_registration view error p →
  failed_registration view error (step p e).
Proof.
  intros [Hlen Hcases]. destruct (settles view e) eqn:Hsettles.
  - destruct e as [| |w| |]; try done. simpl in Hsettles.
    apply bool_decide_eq_true in Hsettles as ->. simpl.
    destruct (settle_frame view p) as (_ & _ & _ & _ & _ & Hlen' & _).
    split; [by rewrite Hlen' |]. right.
    destruct Hcases as [Hpending | [Hidle Htoken]].
    + destruct (settle_token view p _ Hpending) as [-> ->]. done.
    + by rewrite settle_idle.
  - destruct (step_view_frame p e view Hlen Hsettles) as (Hlen' & Ht & Hr).
    unfold failed_registration. rewrite Ht, Hr. by split.
Qed.

Lemma run_failed_registration
    (view : nat) (error : js_thrown) (events : list event) (p : Process) :
  failed_registration view error p →
  failed_registration view error (run p events).
Proof.
  revert p. induction events as [|e events IH]; intros p Hp; [done |].
  simpl. by apply IH, step_failed_registration.
Qed.

(** C6: when the registration started by an activation fails with an
    error, then, whatever happens before as long as the view is not torn
    down, once its promise has settled the token of that view is the
    error converted to a string, and no rejection is left without a
    handler: nothing reaches the view. *)
Theorem registration_error_becomes_token
    (env : Env) (p : Process) (error : js_thrown) (events : list event) :
  areListenersReady p = false →
  outcome (registerForPushNotificationsAsync env) = Rejected error →
  Forall (fun e => tears_down (length (views p)) e = false) events →
  let view := length (views p) in
  let q := run p (Mount env :: events ++ [Settle view]) in
  expoPushToken_of q view = template_string error
  ∧ registration_of q view = None
  ∧ unhandled q = unhandled p.
Proof.
  intros Hready Hfail Hmounted view q.
  assert (Hstart : failed_registration view error (usePushNotifications env p)).
  { split; [rewrite mount_length; unfold view; lia |]. left.
    rewrite mount_first by done. unfold registration_of; simpl.
    rewrite list_lookup_middle by done. simpl. by rewrite Hfail. }
  split; [| split; [| apply run_unhandled]].
  all: subst q; unfold run; simpl; rewrite foldl_app; simpl;
    fold (run (usePushNotifications env p) events).
  all: destruct (run_failed_registration view error events _ Hstart)
         as [_ [Hpending | [Hidle Htoken]]].
  - by destruct (settle_token view _ _ Hpending) as [-> _].
  - by rewrite settle_idle.
  - by destruct (settle_token view _ _ Hpending) as [_ ->].
  - by rewrite settle_idle.
Qed.

Lemma registration_error_becomes_token_witness :
  (areListenersReady init = false
   ∧ outcome (registerForPushNotificationsAsync emulator_env)
     = Rejected (JsError "Must use physical device for push notifications")
   ∧ Forall (fun e => tears_down 0 e = false) mounted_events)
  ∧ expoPushToken_of
      (run init (Mount emulator_env :: mounted_events ++ [Settle 0])) 0
    = "Error: Must use physical device for push notifications"
  ∧ registration_of
      (run init (Mount emulator_env :: mounted_events ++ [Settle 0])) 0
    = None
  ∧ unhandled (run init (Mount emulator_env :: mounted_events ++ [Settle 0]))
    = [].
Proof.
  split.
  - split; [reflexivity |]. split; [reflexivity | repeat constructor].
  - apply (registration_error_becomes_token emulator_env init
             (JsError "Must use physical device for push notifications")
             mounted_events); [reflexivity | reflexivity | repeat constructor].
Defined.

(** ** The hook: the stored list *)

Lemma Forall_views_notifications (P : list Notification -> Prop) (p : Process) :
  P [] →
  Forall (fun v => P (notifications v)) (views p)
  ↔ ∀ j, P (notifications_of p j).
Proof.
  intros Hnil. rewrite Forall_lookup. unfold notifications_of. split.
  - intros H j. destruct (views p !! j) eqn:Hj; eauto.
  - intros H j v Hj. specialize (H j). by rewrite Hj in H.
Qed.

Lemma notifications_of_setNotifications_eq
    (view : nat) (value : list Notification) (p : Process) :
  view < length (views p) →
  notifications_of (setNotifications view value p) view = value.
Proof.
  intros Hlt. unfold notifications_of, setNotifications, with_views; simpl.
  rewrite list_lookup_alter_eq.
  destruct (lookup_lt_is_Some_2 _ _ Hlt) as [v ->]. done.
Qed.

Lemma notifications_of_setNotifications
    (view : nat) (value : list Notification) (p : Process) (j : nat) :
  notifications_of (setNotifications view value p) j = value
  ∨ notifications_of (setNotifications view value p) j = notifications_of p j.
Proof.
  unfold notifications_of, setNotifications, with_views; simpl.
  rewrite list_lookup_alter. case_decide as Hj; [subst j | by right].
  destruct (views p !! view); simpl; auto.
Qed.

(** In a well-formed process an arriving notification overwrites the list
    of the one view that owns the listener with the one-element list. *)
Lemma receive_well_formed (notification : Notification) (p : Process) :
  well_formed p →
  receive notification p
  = match notificationListeners p with
    | [] => p
    | l :: _ => setNotifications (owner l) [notification] p
    end.
Proof.
  intros (Hclosure & Hone & _ & _). unfold receive.
  destruct (notificationListeners p) as [|l [|l' ls]]; simpl in *; [done | | lia].
  apply Forall_singleton in Hclosure as [Hnil _].
  unfold notificationListener. by rewrite Hnil.
Qed.

Lemma step_well_formed (p : Process) (e : event) :
  well_formed p → well_formed (step p e).
Proof.
  intros Hwf. pose proof Hwf as (Hclosure & Hone & Hguard & Hstored).
  destruct e as [env|view|view|notification|response]; simpl.
  - destruct (areListenersReady p) eqn:Hready.
    + rewrite mount_ready by done. repeat split; simpl; try done.
      * eapply Forall_impl; [exact Hclosure |].
        intros l [? ?]. rewrite length_app; simpl. split; [done | lia].
      * apply Forall_app. split; [done |]. apply Forall_singleton. simpl. lia.
    + rewrite mount_first by done. rewrite (Hguard eq_refl).
      repeat split; simpl; try done.
      * apply Forall_singleton. simpl. rewrite length_app; simpl.
        split; [done | lia].
      * apply Forall_app. split; [done |]. apply Forall_singleton. simpl. lia.
  - repeat split; simpl; try done.
    + apply Forall_forall. intros l Hl. apply list_elem_of_filter in Hl as [_ Hl].
      by apply (proj1 (Forall_forall _ _) Hclosure).
    + etrans; [apply length_filter | done].
    + intros Hready. by rewrite (Hguard Hready).
  - destruct (settle_frame view p) as (Hf & Hl & _ & _ & _ & Hlen & Hn).
    unfold well_formed. rewrite Hf, Hl, Hlen. repeat split; try done.
    apply (Forall_views_notifications (fun ns => length ns ≤ 1)); [simpl; lia |].
    intros j. rewrite Hn. revert j.
    apply (Forall_views_notifications (fun ns => length ns ≤ 1)); [simpl; lia | done].
  - destruct (receive_frame notification p) as (Hf & Hl & _ & _ & _ & Hlen & _).
    unfold well_formed. rewrite Hf, Hl, Hlen. repeat split; try done.
    apply (Forall_views_notifications (fun ns => length ns ≤ 1)); [simpl; lia |].
    intros j. rewrite receive_well_formed by done.
    assert (Hold : length (notifications_of p j) ≤ 1).
    { revert j. apply (Forall_views_notifications (fun ns => length ns ≤ 1));
        [simpl; lia | done]. }
    destruct (notificationListeners p) as [|l ls]; [done |].
    destruct (notifications_of_setNotifications (owner l) [notification] p j)
      as [-> | ->]; [simpl; lia | done].
  - done.
Qed.

Lemma init_well_formed : well_formed init.
Proof. repeat split; simpl; auto with lia. Qed.

Lemma run_well_formed (events : list event) (p : Process) :
  well_formed p → well_formed (run p events).
Proof.
  revert p. induction events as [|e events IH]; intros p Hwf; [done |].
  simpl. apply IH. by apply step_well_formed.
Qed.

(** Received notifications do not change who listens. *)
Lemma run_receive_listeners (ns : list Notification) (p : Process) :
  notificationListeners (run p (map Receive ns)) = notificationListeners p
  ∧ length (views (run p (map Receive ns))) = length (views p).
Proof.
  revert p. induction ns as [|n ns IH]; intros p; [done |].
  simpl. destruct (IH (receive n p)) as [-> ->].
  destruct (receive_frame n p) as (_ & -> & _ & _ & _ & -> & _). done.
Qed.

(** C2: the listener closes over the empty list of the first render.  So
    in every process reached from the start no view stores more than one
    record; an arriving record leaves every listening view with exactly
    that record; and after one activation and any records followed by a
    last one, the view stores the last one alone. *)
Theorem stored_list_is_latest_only :
  (∀ (events : list event) (view : nat),
     length (notifications_of (run init events) view) ≤ 1)
  ∧ (∀ (events : list event) (n : Notification),
       Forall (fun l =>
                 closure_notifications l = []
                 ∧ notifications_of (step (run init events) (Receive n)) (owner l)
                   = [n])
              (notificationListeners (run init events)))
  ∧ (∀ (env : Env) (ns : list Notification) (n : Notification),
       notifications_of (run init (Mount env :: map Receive (ns ++ [n]))) 0
       = [n]).
Proof.
  assert (Hlisteners : ∀ p n, well_formed p →
    Forall (fun l =>
              closure_notifications l = []
              ∧ notifications_of (step p (Receive n)) (owner l) = [n])
           (notificationListeners p)).
  { intros p n Hwf. simpl. rewrite receive_well_formed by done.
    destruct Hwf as (Hclosure & Hone & _ & _).
    destruct (notificationListeners p) as [|l [|l' ls]]; simpl in *;
      [done | | lia].
    apply Forall_singleton in Hclosure as [Hnil Hlt].
    apply Forall_singleton. split; [done |].
    by apply notifications_of_setNotifications_eq. }
  split; [| split].
  - intros events.
    apply (Forall_views_notifications (fun ns => length ns ≤ 1)); [simpl; lia |].
    apply (run_well_formed events init init_well_formed).
  - intros events n. apply Hlisteners, run_well_formed, init_well_formed.
  - intros env ns n. rewrite map_app. simpl map.
    change (Mount env :: map Receive ns ++ [Receive n])
      with ((Mount env :: map Receive ns) ++ [Receive n]).
    unfold run. rewrite foldl_app. simpl foldl at 1.
    fold (run init (Mount env :: map Receive ns)).
    pose proof (Hlisteners (run init (Mount env :: map Receive ns)) n
                  (run_well_formed _ init init_well_formed)) as H.
    simpl run in H.
    destruct (run_receive_listeners ns (usePushNotifications env init))
      as [Hl _].
    unfold run in Hl, H. rewrite Hl in H. rewrite mount_first in H by done.
    simpl in H. apply Forall_singleton in H as [_ H]. exact H.
Qed.

(** C1 fails on the code: after one activation and the records A, B and C
    in that order the view stores C alone, not C, B, A. *)
Lemma received_records_do_not_accumulate :
  notifications_of
    (run init [Mount phone_env; Receive recordA; Receive recordB]) 0
  = [recordB]
  ∧ notifications_of
      (run init [Mount phone_env; Receive recordA; Receive recordB;
                 Receive recordC]) 0
    = [recordC].
Proof. split; reflexivity. Qed.

(** ** The hook: repeated activation *)

Lemma init_activated : activated 0 init.
Proof. repeat split; simpl; auto with lia. Qed.

Lemma step_activated (k : nat) (p : Process) (e : event) :
  tears_down 0 e = false →
  is_receive e = false →
  activated k p →
  activated (k + activations [e]) (step p e).
Proof.
  intros Hkeep Hquiet' (Hlen & Hquiet & Hzero & Hpos).
  destruct e as [env|view|view|notification|response]; try done;
    unfold activations; simpl.
  - destruct k as [|k].
    + destruct (Hzero eq_refl) as [Hready Hnone].
      rewrite mount_first by done. rewrite Hnone, Hlen.
      apply length_zero_iff_nil in Hlen. rewrite Hlen.
      repeat split; simpl; auto with lia.
    + destruct (Hpos ltac:(lia)) as [Hready Hone].
      rewrite mount_ready by done. rewrite Hone.
      repeat split; simpl; auto with lia.
      * rewrite length_app; simpl. lia.
      * apply Forall_app. split; [done |]. by apply Forall_singleton.
  - simpl in Hkeep. apply bool_decide_eq_false in Hkeep.
    rewrite Nat.add_0_r. unfold activated; simpl.
    split; [done |]. split; [done |]. split.
    + intros Hk. destruct (Hzero Hk) as [Hready ->]. done.
    + intros Hk. destruct (Hpos Hk) as [Hready ->].
      split; [done |]. by rewrite filter_cons_True by (simpl; lia).
  - destruct (settle_frame view p) as (Hf & Hl & _ & _ & _ & Hlen' & Hn).
    rewrite Nat.add_0_r. unfold activated. rewrite Hf, Hl, Hlen'.
    split; [done |]. split; [| done].
    apply (Forall_views_notifications (fun ns => ns = [])); [done |].
    intros j. rewrite Hn. revert j.
    by apply (Forall_views_notifications (fun ns => ns = [])).
  - by rewrite Nat.add_0_r.
Qed.

Lemma run_activated (events : list event) (k : nat) (p : Process) :
  Forall (fun e => tears_down 0 e = false ∧ is_receive e = false) events →
  activated k p →
  activated (k + activations events) (run p events).
Proof.
  revert k p. induction events as [|e events IH]; intros k p Hev Hact.
  - unfold activations; simpl. by rewrite Nat.add_0_r.
  - apply Forall_cons in Hev as [[Hkeep Hquiet] Hev]. simpl.
    replace (k + activations (e :: events))
      with ((k + activations [e]) + activations events).
    + apply IH; [done |]. by apply step_activated.
    + unfold activations. simpl. destruct (is_mount e); simpl; lia.
Qed.

Lemma stored_entries_quiet (vs : list View) :
  Forall (fun v => notifications v = []) vs →
  sum_list (map (fun v => length (notifications v)) vs) = 0.
Proof.
  induction 1 as [|v vs Hv _ IH]; [done |]. simpl. by rewrite Hv, IH.
Qed.

(** After at least one activation, the first record to arrive is stored
    once. *)
Lemma activated_receive (k : nat) (p : Process) (n : Notification) :
  0 < k → activated k p →
  length (notificationListeners p) = 1
  ∧ stored_entries (step p (Receive n)) = 1.
Proof.
  intros Hk (Hlen & Hquiet & _ & Hpos). destruct (Hpos Hk) as [_ Hone].
  split; [by rewrite Hone |].
  simpl. unfold receive. rewrite Hone. simpl.
  unfold stored_entries, notificationListener, setNotifications, with_views.
  simpl. destruct (views p) as [|v vs]; [simpl in Hlen; lia |].
  apply Forall_cons in Hquiet as [_ Hquiet]. simpl.
  by rewrite stored_entries_quiet.
Qed.

(** There is never more than one listener for received notifications. *)
Lemma at_most_one_listener (events : list event) :
  length (notificationListeners (run init events)) ≤ 1.
Proof. apply (run_well_formed events init init_well_formed). Qed.

(** C5, as the code has it: start a process and activate the hook twice,
    the first view staying mounted (registrations may settle, responses
    come and later views be torn down at any point): exactly one listener
    for received notifications is active, and the first record to arrive
    then makes exactly one stored entry over all views. *)
Theorem two_activations_one_listener_while_mounted
    (events : list event) (n : Notification) :
  Forall (fun e => tears_down 0 e = false ∧ is_receive e = false) events →
  activations events = 2 →
  length (notificationListeners (run init events)) = 1
  ∧ stored_entries (step (run init events) (Receive n)) = 1.
Proof.
  intros Hevents Htwo.
  apply (activated_receive 2); [lia |].
  rewrite <- Htwo. apply (run_activated events 0 init Hevents init_activated).
Qed.

Lemma two_activations_one_listener_while_mounted_witness :
  (Forall (fun e => tears_down 0 e = false ∧ is_receive e = false)
          two_activations
   ∧ activations two_activations = 2)
  ∧ length (notificationListeners (run init two_activations)) = 1
  ∧ stored_entries (step (run init two_activations) (Receive recordA)) = 1.
Proof.
  split.
  - split; [repeat constructor | reflexivity].
  - apply (two_activations_one_listener_while_mounted two_activations recordA);
      [repeat constructor | reflexivity].
Defined.

(** C5, as stated, fails: when the first view is torn down before the
    second activation, the two activations leave no listener, because the
    flag is still set, and a record that arrives is stored nowhere. *)
Lemma remount_leaves_no_listener :
  activations remounted = 2
  ∧ length (notificationListeners (run init remounted)) = 0
  ∧ stored_entries (step (run init remounted) (Receive recordA)) = 0.
Proof. repeat split. Qed.

(** * Further properties *)

(** ** The registration procedure, path by path *)

(** The four shapes of a run of the procedure. *)
Ltac register_cases env :=
  let Hdev := fresh "Hdev" in
  let Hperm := fresh "Hperm" in
  let Hpid := fresh "Hpid" in
  destruct (Device_isDevice env) eqn:Hdev;
  [ destruct (decide (getPermissionsAsync env = granted
                      ∨ requestPermissionsAsync env = granted)) as [Hperm|Hperm];
    [ destruct (truthy (resolve_projectId env)) eqn:Hpid;
      [ rewrite (register_with_project env Hdev Hperm Hpid)
      | rewrite (register_no_project env Hdev Hperm Hpid) ]
    | rewrite (register_permission_refused env Hdev
                 (fun H => Hperm (or_introl H)) (fun H => Hperm (or_intror H))) ]
  | rewrite (register_not_device env Hdev) ].

(** Unfolds the two symbolic prefixes of the list of calls. *)
Ltac prefix_cases env :=
  unfold calls, outcome, count_calls, channel_setup, permission_calls; simpl;
  destruct (decide (Platform_OS env = "android"));
  destruct (decide (getPermissionsAsync env ≠ granted)); simpl.

(** X1: on a device, when the permission is not granted by the query and
    not by the request either, the procedure fails with the error
    "Permission not granted to get push token for push notification!",
    shows one alert, asks for the permission once, and makes no network
    call. *)
Theorem permission_refused_fails (env : Env) :
  Device_isDevice env = true →
  getPermissionsAsync env ≠ granted →
  requestPermissionsAsync env ≠ granted →
  outcome (registerForPushNotificationsAsync env)
    = Rejected (JsError
        "Permission not granted to get push token for push notification!")
  ∧ count_calls is_alert (calls (registerForPushNotificationsAsync env)) = 1
  ∧ count_calls is_request_permissions
      (calls (registerForPushNotificationsAsync env)) = 1
  ∧ count_calls is_network_call
      (calls (registerForPushNotificationsAsync env)) = 0.
Proof.
  intros Hdev Hq Hr. rewrite register_permission_refused by done.
  unfold calls, outcome, count_calls, channel_setup; simpl.
  destruct (decide (Platform_OS env = "android")); done.
Qed.

Lemma permission_refused_fails_witness :
  (Device_isDevice refused_env = true
   ∧ getPermissionsAsync refused_env ≠ granted
   ∧ requestPermissionsAsync refused_env ≠ granted)
  ∧ outcome (registerForPushNotificationsAsync refused_env)
    = Rejected (JsError
        "Permission not granted to get push token for push notification!")
  ∧ count_calls is_alert (calls (registerForPushNotificationsAsync refused_env))
    = 1
  ∧ count_calls is_request_permissions
      (calls (registerForPushNotificationsAsync refused_env)) = 1
  ∧ count_calls is_network_call
      (calls (registerForPushNotificationsAsync refused_env)) = 0.
Proof.
  split.
  - split; [reflexivity |]. split; discriminate.
  - apply (permission_refused_fails refused_env);
      [reflexivity | discriminate | discriminate].
Defined.

(** X2: the permission is queried once exactly on a device, and asked for
    once exactly on a device whose query did not say granted: never
    otherwise, and never twice. *)
Theorem permission_asked_at_most_once (env : Env) :
  count_calls is_get_permissions (calls (registerForPushNotificationsAsync env))
    = (if Device_isDevice env then 1 else 0)
  ∧ count_calls is_request_permissions
      (calls (registerForPushNotificationsAsync env))
    = (if Device_isDevice env && bool_decide (getPermissionsAsync env ≠ granted)
       then 1 else 0).
Proof.
  register_cases env; simpl.
  - destruct (getExpoPushTokenAsync env (resolve_projectId env));
      prefix_cases env; (by rewrite bool_decide_true) || (by rewrite bool_decide_false).
  - prefix_cases env; (by rewrite bool_decide_true) || (by rewrite bool_decide_false).
  - rewrite bool_decide_true by (intros H; apply Hperm; auto).
    unfold calls, count_calls, channel_setup; simpl.
    destruct (decide (Platform_OS env = "android")); done.
  - unfold calls, count_calls, channel_setup; simpl.
    destruct (decide (Platform_OS env = "android")); done.
Qed.

(** X3: the procedure succeeds exactly when it runs on a device, the
    permission ends up granted, the project identifier is truthy and the
    provider resolves; its result is then the provider's token, never
    [undefined]. *)
Theorem register_succeeds_iff (env : Env) (result : option string) :
  outcome (registerForPushNotificationsAsync env) = Resolved result
  ↔ Device_isDevice env = true
    ∧ (getPermissionsAsync env = granted ∨ requestPermissionsAsync env = granted)
    ∧ truthy (resolve_projectId env) = true
    ∧ ∃ token, result = Some token
        ∧ getExpoPushTokenAsync env (resolve_projectId env) = Resolved token.
Proof.
  register_cases env; unfold outcome; simpl.
  - destruct (getExpoPushTokenAsync env (resolve_projectId env)) as [token|error];
      simpl; split.
    + intros [= <-]. eauto 10.
    + intros (_ & _ & _ & t & -> & [= ->]). done.
    + done.
    + intros (_ & _ & _ & t & _ & [=]).
  - split; [done |]. intros (_ & _ & [=] & _).
  - split; [done |]. intros (_ & H & _). done.
  - split; [done |]. intros ([=] & _).
Qed.

Lemma register_succeeds_iff_witness :
  outcome (registerForPushNotificationsAsync both_env)
  = Resolved (Some sample_token).
Proof.
  apply (register_succeeds_iff both_env (Some sample_token)).
  split; [reflexivity |]. split; [right; reflexivity |].
  split; [reflexivity |]. exists sample_token. split; reflexivity.
Defined.

(** X4: on the runs in which the operating system's calls resolve, the
    procedure shows an alert exactly when it fails, and then exactly one:
    it is its last call, and its text is the message of the error the
    procedure fails with. *)
Theorem alert_once_iff_failure (env : Env) :
  count_calls is_alert (calls (registerForPushNotificationsAsync env))
    = match outcome (registerForPushNotificationsAsync env) with
      | Resolved _ => 0
      | Rejected _ => 1
      end
  ∧ ∀ error,
      outcome (registerForPushNotificationsAsync env) = Rejected error →
      ∃ errorMessage,
        error = JsError errorMessage
        ∧ last (calls (registerForPushNotificationsAsync env))
          = Some (Alert errorMessage).
Proof.
  split; [| intros error; apply register_rejects_with_alert].
  register_cases env.
  - destruct (getExpoPushTokenAsync env (resolve_projectId env));
      prefix_cases env; done.
  - prefix_cases env; done.
  - unfold calls, outcome, count_calls, channel_setup; simpl.
    destruct (decide (Platform_OS env = "android")); done.
  - unfold calls, outcome, count_calls, channel_setup; simpl.
    destruct (decide (Platform_OS env = "android")); done.
Qed.

Lemma alert_once_iff_failure_witness :
  outcome (registerForPushNotificationsAsync refused_env)
    = Rejected (JsError
        "Permission not granted to get push token for push notification!")
  ∧ ∃ errorMessage,
      JsError "Permission not granted to get push token for push notification!"
        = JsError errorMessage
      ∧ last (calls (registerForPushNotificationsAsync refused_env))
        = Some (Alert errorMessage).
Proof.
  split; [reflexivity |].
  apply (proj2 (alert_once_iff_failure refused_env)). reflexivity.
Defined.

(** X5: on a device with the permission granted and a truthy project
    identifier, when the provider rejects, the procedure shows the text of
    the provider's error in an alert and fails with a new error whose
    message is that text: the provider is asked once and not again. *)
Theorem token_fetch_failure_rethrown (env : Env) (error : js_thrown) :
  Device_isDevice env = true →
  getPermissionsAsync env = granted ∨ requestPermissionsAsync env = granted →
  truthy (resolve_projectId env) = true →
  getExpoPushTokenAsync env (resolve_projectId env) = Rejected error →
  outcome (registerForPushNotificationsAsync env)
    = Rejected (JsError (template_string error))
  ∧ last (calls (registerForPushNotificationsAsync env))
    = Some (Alert (template_string error))
  ∧ count_calls is_network_call
      (calls (registerForPushNotificationsAsync env)) = 1.
Proof.
  intros Hdev Hperm Hpid Hprovider.
  rewrite register_with_project by done. rewrite Hprovider.
  split; [reflexivity |]. split.
  - unfold calls; simpl. by rewrite !last_app.
  - prefix_cases env; done.
Qed.

Lemma token_fetch_failure_rethrown_witness :
  (Device_isDevice offline_env = true
   ∧ (getPermissionsAsync offline_env = granted
      ∨ requestPermissionsAsync offline_env = granted)
   ∧ truthy (resolve_projectId offline_env) = true
   ∧ getExpoPushTokenAsync offline_env (resolve_projectId offline_env)
     = Rejected (JsError "Network request failed"))
  ∧ outcome (registerForPushNotificationsAsync offline_env)
    = Rejected (JsError "Error: Network request failed")
  ∧ last (calls (registerForPushNotificationsAsync offline_env))
    = Some (Alert "Error: Network request failed")
  ∧ count_calls is_network_call
      (calls (registerForPushNotificationsAsync offline_env)) = 1.
Proof.
  split.
  - split; [reflexivity |]. split; [left; reflexivity |]. split; reflexivity.
  - apply (token_fetch_failure_rethrown offline_env
             (JsError "Network request failed"));
      [reflexivity | left; reflexivity | reflexivity | reflexivity].
Defined.

(** X6: an empty project identifier in the build-time configuration hides
    the fallback: [??] keeps the empty string, which is falsy, so on a
    device with the permission granted the procedure fails with
    "Project ID not found" whatever the fallback holds, and the provider
    is never asked. *)
Theorem empty_project_id_hides_fallback (env : Env) :
  Device_isDevice env = true →
  getPermissionsAsync env = granted ∨ requestPermissionsAsync env = granted →
  expoConfig_projectId env = Some "" →
  outcome (registerForPushNotificationsAsync env)
    = Rejected (JsError "Project ID not found")
  ∧ count_calls is_network_call
      (calls (registerForPushNotificationsAsync env)) = 0.
Proof.
  intros Hdev Hperm Hexpo.
  rewrite register_no_project;
    [| done | done | by unfold resolve_projectId; rewrite Hexpo].
  split; [reflexivity |]. prefix_cases env; done.
Qed.

Lemma empty_project_id_hides_fallback_witness :
  (Device_isDevice masked_env = true
   ∧ (getPermissionsAsync masked_env = granted
      ∨ requestPermissionsAsync masked_env = granted)
   ∧ expoConfig_projectId masked_env = Some ""
   ∧ easConfig_projectId masked_env = Some "project-2")
  ∧ outcome (registerForPushNotificationsAsync masked_env)
    = Rejected (JsError "Project ID not found")
  ∧ count_calls is_network_call
      (calls (registerForPushNotificationsAsync masked_env)) = 0.
Proof.
  split.
  - split; [reflexivity |]. split; [left; reflexivity |]. split; reflexivity.
  - apply (empty_project_id_hides_fallback masked_env);
      [reflexivity | left; reflexivity | reflexivity].
Defined.

(** X7: the provider is asked with the project identifier the two sources
    resolve to, the build-time one first: whenever the build-time
    configuration has a non-empty identifier, the one network call of the
    procedure asks for a token for it, whatever the fallback holds; the
    fallback is used when the build-time one is missing. *)
Theorem token_requested_for_resolved_project (env : Env) (projectId : string) :
  Device_isDevice env = true →
  getPermissionsAsync env = granted ∨ requestPermissionsAsync env = granted →
  projectId ≠ "" →
  expoConfig_projectId env = Some projectId
  ∨ (expoConfig_projectId env = None ∧ easConfig_projectId env = Some projectId) →
  List.filter is_network_call (calls (registerForPushNotificationsAsync env))
  = [GetExpoPushToken (Some projectId)].
Proof.
  intros Hdev Hperm Hne Hsource.
  assert (Hresolve : resolve_projectId env = Some projectId).
  { unfold resolve_projectId.
    destruct Hsource as [-> | [-> ->]]; reflexivity. }
  assert (Hpid : truthy (resolve_projectId env) = true).
  { rewrite Hresolve. simpl. by apply bool_decide_eq_true. }
  rewrite register_with_project by done. rewrite Hresolve.
  destruct (getExpoPushTokenAsync env (Some projectId)); prefix_cases env; done.
Qed.

Lemma token_requested_for_resolved_project_witness :
  (Device_isDevice both_env = true
   ∧ (getPermissionsAsync both_env = granted
      ∨ requestPermissionsAsync both_env = granted)
   ∧ "project-1" ≠ ""
   ∧ expoConfig_projectId both_env = Some "project-1"
   ∧ easConfig_projectId both_env = Some "project-2")
  ∧ List.filter is_network_call
      (calls (registerForPushNotificationsAsync both_env))
    = [GetExpoPushToken (Some "project-1")].
Proof.
  split.
  - split; [reflexivity |]. split; [right; reflexivity |].
    split; [discriminate |]. split; reflexivity.
  - apply (token_requested_for_resolved_project both_env "project-1");
      [reflexivity | right; reflexivity | discriminate | left; reflexivity].
Defined.

(** X8: the notification channel "default" is set up exactly on Android,
    once, before anything else, on a device or not and whether the
    procedure then succeeds or fails. *)
Theorem channel_set_up_first_on_android (env : Env) :
  count_calls is_channel_setup (calls (registerForPushNotificationsAsync env))
    = (if decide (Platform_OS env = "android") then 1 else 0)
  ∧ (head (calls (registerForPushNotificationsAsync env))
       = Some (SetNotificationChannel "default")
     ↔ Platform_OS env = "android").
Proof.
  register_cases env.
  - destruct (getExpoPushTokenAsync env (resolve_projectId env));
      prefix_cases env; (split; [done |]); split; done.
  - prefix_cases env; (split; [done |]); split; done.
  - unfold calls, count_calls, channel_setup; simpl.
    destruct (decide (Platform_OS env = "android"));
      (split; [done |]); split; done.
  - unfold calls, count_calls, channel_setup; simpl.
    destruct (decide (Platform_OS env = "android"));
      (split; [done |]); split; done.
Qed.

(** X9: the procedure goes over the network at most once: exactly when it
    runs on a device, the permission ends up granted and the project
    identifier is truthy. *)
Theorem network_call_iff_ready (env : Env) :
  count_calls is_network_call (calls (registerForPushNotificationsAsync env))
  = (if Device_isDevice env
        && bool_decide (getPermissionsAsync env = granted
                        ∨ requestPermissionsAsync env = granted)
        && truthy (resolve_projectId env)
     then 1 else 0).
Proof.
  register_cases env; simpl.
  - rewrite bool_decide_true by done.
    destruct (getExpoPushTokenAsync env (resolve_projectId env));
      prefix_cases env; done.
  - rewrite bool_decide_true by done. prefix_cases env; done.
  - rewrite bool_decide_false by done.
    unfold calls, count_calls, channel_setup; simpl.
    destruct (decide (Platform_OS env = "android")); done.
  - unfold calls, count_calls, channel_setup; simpl.
    destruct (decide (Platform_OS env = "android")); done.
Qed.

(** ** The hook over a whole run *)

Lemma init_first_view_only : first_view_only init.
Proof. repeat split; simpl; auto with lia; done. Qed.

Lemma later_view_fresh (p : Process) (view : nat) (v : View) :
  first_view_only p → views p !! S view = Some v → v = fresh_view.
Proof.
  intros (_ & _ & _ & Hfresh & _) Hv.
  destruct (views p) as [|v0 vs]; [done |]. simpl in *.
  by apply (proj1 (Forall_lookup _ _) Hfresh view v).
Qed.

Lemma later_view_idle (p : Process) (view : nat) :
  first_view_only p → registration_of p (S view) = None.
Proof.
  intros Hp. unfold registration_of.
  destruct (views p !! S view) as [v|] eqn:Hv; [| done].
  by rewrite (later_view_fresh p view v Hp Hv).
Qed.

Lemma tail_alter_0 (f : View -> View) (vs : list View) :
  tail (alter f 0 vs) = tail vs.
Proof. by destruct vs. Qed.

Lemma step_first_view_only (p : Process) (e : event) :
  well_formed p → first_view_only p → first_view_only (step p e).
Proof.
  intros Hwf Hp.
  pose proof Hp as (Hown & Hresp & Hone & Hfresh & Hclear & Hset).
  destruct e as [env|view|view|notification|response]; simpl.
  - destruct (areListenersReady p) eqn:Hready.
    + rewrite mount_ready by done.
      split; [| split; [| split; [| split; [| split]]]]; simpl; try done.
      * destruct (views p) as [|v0 vs]; [by destruct Hset |]. simpl.
        apply Forall_app. split; [done |]. by apply Forall_singleton.
      * intros _. by destruct (views p).
    + destruct (Hclear eq_refl) as (Hviews & Hnone & Hlog).
      destruct Hwf as (_ & _ & Hguard & _).
      rewrite mount_first by done. rewrite (Hguard Hready), Hviews, Hnone.
      split; [| split; [| split; [| split; [| split]]]]; simpl; try done.
      * by apply Forall_singleton.
      * by apply Forall_singleton.
  - split; [| split; [| split; [| split; [| split]]]]; simpl; try done.
    + apply Forall_forall. intros l Hl.
      apply list_elem_of_filter in Hl as [_ Hl].
      by apply (proj1 (Forall_forall _ _) Hown).
    + apply Forall_forall. intros v Hv.
      apply list_elem_of_filter in Hv as [_ Hv].
      by apply (proj1 (Forall_forall _ _) Hresp).
    + etrans; [apply length_filter | done].
    + intros Hready. destruct (Hclear Hready) as (-> & -> & ->). done.
  - destruct view as [|view].
    + destruct (settle_frame 0 p) as (Hf & Hl & Hr & Hlog & _ & Hlen & _).
      assert (Htail : tail (views (settle 0 p)) = tail (views p)).
      { unfold settle. destruct (views p !! 0) as [v|]; [| done].
        destruct (registration v) as [[token|error]|]; [| | done]; simpl;
          by rewrite !tail_alter_0. }
      unfold first_view_only. rewrite Hf, Hl, Hr, Hlog, Htail.
      split; [| split; [| split; [| split; [| split]]]]; try done.
      * intros Hready. destruct (Hclear Hready) as (Hviews & -> & ->).
        split; [| done]. apply length_zero_iff_nil. by rewrite Hlen, Hviews.
      * intros Hready Hnil. apply (Hset Hready).
        apply length_zero_iff_nil. rewrite <- Hlen. by rewrite Hnil.
    + by rewrite settle_idle by (by apply later_view_idle).
  - destruct (receive_frame notification p)
      as (Hf & Hl & Hr & Hlog & _ & Hlen & _).
    assert (Htail : tail (views (receive notification p)) = tail (views p)).
    { rewrite receive_well_formed by done.
      destruct (notificationListeners p) as [|l ls] eqn:Hls; [done |].
      apply Forall_cons in Hown as [-> _].
      unfold setNotifications, with_views; simpl. apply tail_alter_0. }
    unfold first_view_only. rewrite Hf, Hl, Hr, Hlog, Htail.
    split; [| split; [| split; [| split; [| split]]]]; try done.
    + intros Hready. destruct (Hclear Hready) as (Hviews & -> & ->).
      split; [| done]. apply length_zero_iff_nil. by rewrite Hlen, Hviews.
    + intros Hready Hnil. apply (Hset Hready).
      apply length_zero_iff_nil. rewrite <- Hlen. by rewrite Hnil.
  - split; [| split; [| split; [| split; [| split]]]]; simpl; try done.
    intros Hready. destruct (Hclear Hready) as (-> & -> & ->). done.
Qed.

Lemma run_first_view_only (events : list event) (p : Process) :
  well_formed p → first_view_only p →
  well_formed (run p events) ∧ first_view_only (run p events).
Proof.
  revert p. induction events as [|e events IH]; intros p Hwf Hp; [done |].
  simpl. apply IH; [by apply step_well_formed | by apply step_first_view_only].
Qed.

Lemma reached_first_view_only (events : list event) :
  first_view_only (run init events).
Proof.
  apply (run_first_view_only events init init_well_formed init_first_view_only).
Qed.

(** Every view but the first stays as its first render left it. *)
Lemma reached_later_view (events : list event) (view : nat) :
  expoPushToken_of (run init events) (S view) = ""
  ∧ notifications_of (run init events) (S view) = []
  ∧ registration_of (run init events) (S view) = None.
Proof.
  pose proof (reached_first_view_only events) as Hp.
  unfold expoPushToken_of, notifications_of, registration_of.
  destruct (views (run init events) !! S view) as [v|] eqn:Hv; [| done].
  by rewrite (later_view_fresh _ view v Hp Hv).
Qed.

(** X10: in a process started from scratch, whatever happens, only the
    first view to activate the hook ever gets a token, a stored
    notification or a registration: every later view keeps the empty
    token and the empty list. *)
Theorem only_first_view_is_served (events : list event) (view : nat) :
  expoPushToken_of (run init events) (S view) = ""
  ∧ notifications_of (run init events) (S view) = []
  ∧ registration_of (run init events) (S view) = None.
Proof. apply reached_later_view. Qed.

(** X11: the screen [PushApp] of every view but the first shows
    "Token: " with nothing after it, whatever has happened in the
    process. *)
Theorem later_screens_show_no_token (events : list event) (view : nat) :
  PushApp (run init events) (S view) = "Token: ".
Proof.
  unfold PushApp. by rewrite (proj1 (reached_later_view events view)).
Qed.

(** X12: the clean-up of any view but the first detaches nothing: the
    process is left exactly as it was, listeners included. *)
Theorem later_teardown_changes_nothing (events : list event) (view : nat) :
  step (run init events) (Unmount (S view)) = run init events.
Proof.
  pose proof (reached_first_view_only events) as (Hown & Hresp & _).
  simpl. unfold cleanup.
  destruct (run init events) as [ready vs ls rs lg un]. simpl in *.
  f_equal.
  - induction Hown as [|l ls' Hl _ IH]; [done |].
    rewrite filter_cons_True by (rewrite Hl; done). by rewrite IH.
  - induction Hresp as [|v rs' Hv _ IH]; [done |].
    rewrite filter_cons_True by (rewrite Hv; done). by rewrite IH.
Qed.

(** X13: a response of the user to a notification is only observed: it
    is written to the console by the response listener, at most once, and
    changes neither the views nor the flag nor the listeners. *)
Theorem response_is_only_logged (events : list event) (response : json) :
  let p := run init events in
  views (step p (Respond response)) = views p
  ∧ areListenersReady (step p (Respond response)) = areListenersReady p
  ∧ notificationListeners (step p (Respond response)) = notificationListeners p
  ∧ responseListeners (step p (Respond response)) = responseListeners p
  ∧ (log (step p (Respond response)) = log p
     ∨ log (step p (Respond response)) = log p ++ [ConsoleLog response]).
Proof.
  intros p. pose proof (reached_first_view_only events) as (_ & _ & Hone & _).
  fold p in Hone. simpl. do 4 (split; [reflexivity |]).
  destruct (responseListeners p) as [|v [|v' rs]]; simpl in *.
  - left. apply app_nil_r.
  - by right.
  - lia.
Qed.

(** ** The hook: the registration of the first view *)

Lemma settle_consumes (view : nat) (p : Process) :
  registration_of (settle view p) view = None.
Proof.
  destruct (registration_of p view) as [promise|] eqn:Hreg.
  - by destruct (settle_token view p promise Hreg).
  - by rewrite settle_idle.
Qed.

Lemma step_started_registration
    (view : nat) (promise : settled (option string)) (p : Process) (e : event) :
  started_registration view promise p →
  started_registration view promise (step p e).
Proof.
  intros [Hlen Hcases]. destruct (settles view e) eqn:Hsettles.
  - destruct e as [| |w| |]; try done. simpl in Hsettles.
    apply bool_decide_eq_true in Hsettles as ->. simpl.
    destruct (settle_frame view p) as (_ & _ & _ & _ & _ & Hlen' & _).
    split; [by rewrite Hlen' |]. right.
    destruct Hcases as [Hpending | [Hidle Htoken]].
    + destruct (settle_token view p _ Hpending) as [-> ->].
      by destruct promise.
    + by rewrite settle_idle.
  - destruct (step_view_frame p e view Hlen Hsettles) as (Hlen' & Ht & Hr).
    unfold started_registration. rewrite Ht, Hr. by split.
Qed.

Lemma run_started_registration
    (view : nat) (promise : settled (option string))
    (events : list event) (p : Process) :
  started_registration view promise p →
  started_registration view promise (run p events).
Proof.
  revert p. induction events as [|e events IH]; intros p Hp; [done |].
  simpl. by apply IH, step_started_registration.
Qed.

Lemma mount_starts_registration (env : Env) (p : Process) :
  areListenersReady p = false →
  started_registration (length (views p))
    (outcome (registerForPushNotificationsAsync env))
    (usePushNotifications env p).
Proof.
  intros Hready. split; [rewrite mount_length; lia |]. left.
  rewrite mount_first by done. unfold registration_of; simpl.
  by rewrite list_lookup_middle.
Qed.

(** X14: when the flag is clear, the activation of the hook on a device
    with the permission granted, a truthy project identifier and a
    provider that resolves ends, once the registration has settled and
    whatever else happened in between as long as the view was not torn
    down, with the provider's token in the token of the view. *)
Theorem first_activation_stores_token
    (env : Env) (p : Process) (token : string) (events : list event) :
  areListenersReady p = false →
  Device_isDevice env = true →
  getPermissionsAsync env = granted ∨ requestPermissionsAsync env = granted →
  truthy (resolve_projectId env) = true →
  getExpoPushTokenAsync env (resolve_projectId env) = Resolved token →
  Forall (fun e => tears_down (length (views p)) e = false) events →
  let view := length (views p) in
  let q := run p (Mount env :: events ++ [Settle view]) in
  expoPushToken_of q view = token ∧ registration_of q view = None.
Proof.
  intros Hready Hdev Hperm Hpid Hprovider Hmounted view q.
  pose proof (mount_starts_registration env p Hready) as Hstart.
  rewrite register_with_project in Hstart by done.
  rewrite Hprovider in Hstart. unfold outcome in Hstart; simpl in Hstart.
  subst q. unfold run. simpl. rewrite foldl_app. simpl.
  fold (run (usePushNotifications env p) events).
  split; [| apply settle_consumes].
  destruct (run_started_registration _ _ events _ Hstart)
    as [_ [Hpending | [Hidle Htoken]]].
  - by destruct (settle_token view _ _ Hpending) as [-> _].
  - by rewrite settle_idle.
Qed.

Lemma first_activation_stores_token_witness :
  (areListenersReady init = false
   ∧ Device_isDevice both_env = true
   ∧ (getPermissionsAsync both_env = granted
      ∨ requestPermissionsAsync both_env = granted)
   ∧ truthy (resolve_projectId both_env) = true
   ∧ getExpoPushTokenAsync both_env (resolve_projectId both_env)
     = Resolved sample_token
   ∧ Forall (fun e => tears_down 0 e = false) mounted_events)
  ∧ expoPushToken_of
      (run init (Mount both_env :: mounted_events ++ [Settle 0])) 0
    = sample_token
  ∧ registration_of
      (run init (Mount both_env :: mounted_events ++ [Settle 0])) 0
    = None.
Proof.
  split.
  - split; [reflexivity |]. split; [reflexivity |].
    split; [right; reflexivity |]. split; [reflexivity |].
    split; [reflexivity | repeat constructor].
  - apply (first_activation_stores_token both_env init sample_token
             mounted_events);
      [reflexivity | reflexivity | right; reflexivity | reflexivity
      | reflexivity | repeat constructor].
Defined.

(** X15: the token of a view is written at most once: after the
    registration of a view has settled, nothing that happens later
    changes its token. *)
Theorem token_final_once_settled
    (p : Process) (view : nat) (events : list event) :
  view < length (views p) →
  expoPushToken_of (run (step p (Settle view)) events) view
  = expoPushToken_of (step p (Settle view)) view.
Proof.
  intros Hlen. simpl.
  apply run_idle_view; [| apply settle_consumes].
  by rewrite (proj1 (proj2 (proj2 (proj2 (proj2 (proj2
       (settle_frame view p))))))).
Qed.

Lemma token_final_once_settled_witness :
  0 < length (views activated_once)
  ∧ expoPushToken_of
      (run (step activated_once (Settle 0)) sample_events) 0
    = expoPushToken_of (step activated_once (Settle 0)) 0.
Proof.
  split; [simpl; lia |].
  apply (token_final_once_settled activated_once 0 sample_events).
  simpl; lia.
Defined.

(** ** The hook: after the teardown of the first view *)

Lemma notifications_of_snoc_fresh (vs : list View) (j : nat) :
  match (vs ++ [fresh_view]) !! j with
  | Some v => notifications v
  | None => []
  end
  = match vs !! j with
    | Some v => notifications v
    | None => []
    end.
Proof.
  destruct (decide (j < length vs)) as [Hlt|Hge].
  - by rewrite lookup_app_l.
  - rewrite (lookup_ge_None_2 vs j) by lia.
    destruct (decide (j = length vs)) as [->|Hne].
    + by rewrite list_lookup_middle.
    + rewrite lookup_ge_None_2; [done |]. rewrite length_app; simpl. lia.
Qed.

(** With the flag set and no listener, nothing is stored any more. *)
Lemma step_silent (p : Process) (e : event) :
  areListenersReady p = true →
  notificationListeners p = [] →
  notificationListeners (step p e) = []
  ∧ ∀ j, notifications_of (step p e) j = notifications_of p j.
Proof.
  intros Hready Hnone.
  destruct e as [env|view|view|notification|response]; simpl.
  - rewrite mount_ready by done. simpl. split; [done |].
    intros j. apply notifications_of_snoc_fresh.
  - by rewrite Hnone.
  - destruct (settle_frame view p) as (_ & -> & _ & _ & _ & _ & Hn). done.
  - unfold receive. by rewrite Hnone.
  - done.
Qed.

Lemma run_silent (events : list event) (p : Process) :
  areListenersReady p = true →
  notificationListeners p = [] →
  notificationListeners (run p events) = []
  ∧ ∀ j, notifications_of (run p events) j = notifications_of p j.
Proof.
  revert p. induction events as [|e events IH]; intros p Hready Hnone; [done |].
  destruct (step_silent p e Hready Hnone) as [Hnone' Hsame].
  simpl. destruct (IH (step p e) (step_keeps_ready p e Hready) Hnone')
    as [-> Hn].
  split; [done |]. intros j. by rewrite Hn.
Qed.

(** X16: once the first view has been torn down after an activation, no
    listener is ever attached again: whatever happens later, later
    activations included, every notification that arrives is dropped and
    the stored list of every view stays as it was. *)
Theorem no_record_after_first_teardown
    (before after : list event) (n : Notification) (view : nat) :
  areListenersReady (run init before) = true →
  let p := step (run init before) (Unmount 0) in
  notificationListeners (run p after) = []
  ∧ step (run p after) (Receive n) = run p after
  ∧ notifications_of (run p after) view = notifications_of p view.
Proof.
  intros Hready p.
  assert (Hnone : notificationListeners p = []).
  { subst p. simpl.
    pose proof (reached_first_view_only before) as (Hown & _).
    induction Hown as [|l ls Hl _ IH]; [done |].
    rewrite filter_cons_False by (rewrite Hl; intros H; by apply H). done. }
  assert (Hready' : areListenersReady p = true) by done.
  destruct (run_silent after p Hready' Hnone) as [Hnone' Hsame].
  split; [done |]. split; [| apply Hsame].
  simpl. unfold receive. by rewrite Hnone'.
Qed.

Lemma no_record_after_first_teardown_witness :
  areListenersReady (run init [Mount phone_env; Receive recordA]) = true
  ∧ notificationListeners
      (run (step (run init [Mount phone_env; Receive recordA]) (Unmount 0))
           sample_events) = []
  ∧ step (run (step (run init [Mount phone_env; Receive recordA]) (Unmount 0))
              sample_events) (Receive recordC)
    = run (step (run init [Mount phone_env; Receive recordA]) (Unmount 0))
          sample_events
  ∧ notifications_of
      (run (step (run init [Mount phone_env; Receive recordA]) (Unmount 0))
           sample_events) 0
    = notifications_of
        (step (run init [Mount phone_env; Receive recordA]) (Unmount 0)) 0.
Proof.
  split; [reflexivity |].
  apply (no_record_after_first_teardown
           [Mount phone_env; Receive recordA] sample_events recordC 0).
  reflexivity.
Defined.

(** ** The hook: once per process *)

Lemma step_init_idle (e : event) : is_mount e = false → step init e = init.
Proof. by destruct e. Qed.

Lemma run_cons (p : Process) (e : event) (events : list event) :
  run p (e :: events) = run (step p e) events.
Proof. reflexivity. Qed.

Lemma length_views_step (p : Process) (e : event) :
  length (views (step p e)) = length (views p) + activations [e].
Proof.
  destruct e as [env|view|view|notification|response];
    unfold activations; simpl; rewrite ?Nat.add_0_r; try done.
  - rewrite mount_length. lia.
  - apply settle_frame.
  - apply receive_frame.
Qed.

Lemma length_views_run (events : list event) (p : Process) :
  length (views (run p events)) = length (views p) + activations events.
Proof.
  revert p. induction events as [|e events IH]; intros p.
  - unfold activations; simpl. lia.
  - simpl. rewrite IH, length_views_step.
    unfold activations; simpl. destruct (is_mount e); simpl; lia.
Qed.

(** With the flag set, the only calls still made are the console logs of
    the response listener. *)
Lemma step_log_ready (p : Process) (e : event) :
  areListenersReady p = true →
  ∃ responses, log (step p e) = log p ++ map ConsoleLog responses.
Proof.
  intros Hready. destruct e as [env|view|view|notification|response]; simpl.
  - rewrite mount_ready by done. exists []. simpl. by rewrite app_nil_r.
  - exists []. simpl. by rewrite app_nil_r.
  - destruct (settle_frame view p) as (_ & _ & _ & -> & _).
    exists []. simpl. by rewrite app_nil_r.
  - destruct (receive_frame notification p) as (_ & _ & _ & -> & _).
    exists []. simpl. by rewrite app_nil_r.
  - exists (map (fun _ => response) (responseListeners p)).
    by rewrite map_map.
Qed.

Lemma run_log_ready (events : list event) (p : Process) :
  areListenersReady p = true →
  ∃ responses, log (run p events) = log p ++ map ConsoleLog responses.
Proof.
  revert p. induction events as [|e events IH]; intros p Hready.
  - exists []. simpl. by rewrite app_nil_r.
  - destruct (step_log_ready p e Hready) as [rs1 H1].
    destruct (IH (step p e) (step_keeps_ready p e Hready)) as [rs2 H2].
    exists (rs1 ++ rs2). simpl. by rewrite H2, H1, map_app, app_assoc.
Qed.

Lemma reached_log (events : list event) :
  ∃ responses,
    log (run init events)
    = match first_mount events with
      | Some env => calls (registerForPushNotificationsAsync env)
      | None => []
      end ++ map ConsoleLog responses.
Proof.
  induction events as [|e events IH]; [by exists [] |].
  destruct e as [env|view|view|notification|response];
    try (simpl first_mount; rewrite run_cons, step_init_idle by done;
         exact IH).
  simpl first_mount.
  destruct (run_log_ready events (usePushNotifications env init))
    as [rs Hrs]; [by rewrite mount_first |].
  exists rs.
  change (run init (Mount env :: events))
    with (run (usePushNotifications env init) events).
  rewrite Hrs. by rewrite mount_first.
Qed.

Lemma count_calls_app (kind : call -> bool) (cs1 cs2 : list call) :
  count_calls kind (cs1 ++ cs2) = count_calls kind cs1 + count_calls kind cs2.
Proof. unfold count_calls. by rewrite List.filter_app, length_app. Qed.

Lemma count_calls_console (kind : call -> bool) (values : list json) :
  (∀ value, kind (ConsoleLog value) = false) →
  count_calls kind (map ConsoleLog values) = 0.
Proof.
  intros Hkind. unfold count_calls.
  induction values as [|v vs IH]; [done |]. simpl. by rewrite Hkind.
Qed.

Lemma register_at_most_once (env : Env) :
  count_calls is_alert (calls (registerForPushNotificationsAsync env)) ≤ 1
  ∧ count_calls is_request_permissions
      (calls (registerForPushNotificationsAsync env)) ≤ 1
  ∧ count_calls is_network_call
      (calls (registerForPushNotificationsAsync env)) ≤ 1.
Proof.
  register_cases env.
  - destruct (getExpoPushTokenAsync env (resolve_projectId env));
      prefix_cases env; lia.
  - prefix_cases env; lia.
  - unfold calls, count_calls, channel_setup; simpl.
    destruct (decide (Platform_OS env = "android")); simpl; lia.
  - unfold calls, count_calls, channel_setup; simpl.
    destruct (decide (Platform_OS env = "android")); simpl; lia.
Qed.

(** X17: in a process started from scratch the flag is set exactly when
    the hook has been activated at least once, and there are as many
    views as activations: no teardown, settling, notification or response
    sets or clears the flag. *)
Theorem flag_set_iff_activated (events : list event) :
  areListenersReady (run init events) = existsb is_mount events
  ∧ length (views (run init events)) = activations events.
Proof.
  split; [| by rewrite length_views_run].
  induction events as [|e events IH]; [done |].
  destruct e as [env|view|view|notification|response];
    try (simpl existsb; rewrite run_cons, step_init_idle by done; exact IH).
  simpl existsb.
  change (run init (Mount env :: events))
    with (run (usePushNotifications env init) events).
  apply (run_keeps_ready events). by rewrite mount_first.
Qed.


(** X19: in a whole process, whatever happens and however often the hook
    is activated, at most one alert is shown, the permission is asked for
    at most once and at most one call goes over the network. *)
Theorem at_most_one_alert_per_process (events : list event) :
  count_calls is_alert (log (run init events)) ≤ 1
  ∧ count_calls is_request_permissions (log (run init events)) ≤ 1
  ∧ count_calls is_network_call (log (run init events)) ≤ 1.
Proof.
  destruct (reached_log events) as [rs ->].
  rewrite !count_calls_app, !count_calls_console by done.
  destruct (first_mount events) as [env|].
  - pose proof (register_at_most_once env). lia.
  - unfold count_calls; simpl. lia.
Qed.
